(** * setup-k0s: a shallow embedding of [src/index.ts] and its properties

    The action is a sequential script: every [await] blocks until the
    awaited effect is done.  It is embedded as a state-and-exception monad
    over a [World] (a clock and the log of effects performed so far).  What
    the outside world answers (exit codes, captured output, file-system
    errors, how long things take) is supplied by a [Host], which may base
    each answer on the whole history, so probes may flap from one poll
    cycle to the next. *)

From Stdlib Require Import ZArith List String Ascii Bool Lia DecimalString.
Import ListNotations.
Open Scope string_scope.
Open Scope Z_scope.

(** ** JavaScript values used by the script *)

Module Js.

(** The only numbers the script handles are the result of [parseInt] and
    whole seconds; [NaN] is kept apart because comparisons with it are
    false.  Integers are exact here (a double is exact below 2^53). *)
Inductive number : Type :=
| NaN
| Num (z : Z).

(** [a > b] on numbers: false as soon as one side is [NaN]. *)
Definition gt (a b : number) : bool :=
  match a, b with
  | Num x, Num y => y <? x
  | _, _ => false
  end.

Definition show_Z (z : Z) : string := NilZero.string_of_int (Z.to_int z).

(** Template-literal rendering of a number and of a boolean. *)
Definition show_number (n : number) : string :=
  match n with
  | NaN => "NaN"
  | Num z => show_Z z
  end.

Definition show_bool (b : bool) : string := if b then "true" else "false".

(** [a || b] on strings: the empty string is the only falsy one. *)
Definition or_else (a b : string) : string :=
  match a with
  | EmptyString => b
  | _ => a
  end.

(** [`${error}`] for an [Error] object with the given message. *)
Definition show_error (message : string) : string :=
  match message with
  | EmptyString => "Error"
  | _ => "Error: " ++ message
  end.

Definition bytes (l : list nat) : string :=
  string_of_list_ascii (map ascii_of_nat l).

(** White space and line terminators, as UTF-8 byte sequences: TAB, LF, VT,
    FF, CR, SP, U+00A0, U+1680, U+2000..U+200A, U+2028, U+2029, U+202F,
    U+205F, U+3000 and U+FEFF. *)
Definition white_space : list string :=
  map bytes
    [ [9]; [10]; [11]; [12]; [13]; [32]; [194; 160]; [225; 154; 128];
      [226; 128; 128]; [226; 128; 129]; [226; 128; 130]; [226; 128; 131];
      [226; 128; 132]; [226; 128; 133]; [226; 128; 134]; [226; 128; 135];
      [226; 128; 136]; [226; 128; 137]; [226; 128; 138]; [226; 128; 168];
      [226; 128; 169]; [226; 128; 175]; [226; 129; 159]; [227; 128; 128];
      [239; 187; 191] ]%nat.

(** [strip p s] is [Some rest] when [s = p ++ rest]. *)
Fixpoint strip (p s : string) : option string :=
  match p, s with
  | EmptyString, _ => Some s
  | String a p', String b s' => if Ascii.eqb a b then strip p' s' else None
  | String _ _, EmptyString => None
  end.

Fixpoint strip_any (ps : list string) (s : string) : option string :=
  match ps with
  | [] => None
  | p :: ps' =>
      match strip p s with
      | Some rest => Some rest
      | None => strip_any ps' s
      end
  end.

(** Drops leading white space; [n] bounds the number of characters dropped
    and is always taken to be the length of the string. *)
Fixpoint drop_space (ws : list string) (n : nat) (s : string) : string :=
  match n with
  | O => s
  | S n' =>
      match strip_any ws s with
      | Some rest => drop_space ws n' rest
      | None => s
      end
  end.

Definition reverse (s : string) : string :=
  string_of_list_ascii (rev (list_ascii_of_string s)).

Definition trim_start (s : string) : string :=
  drop_space white_space (String.length s) s.

Definition trim_end (s : string) : string :=
  reverse (drop_space (map reverse white_space) (String.length s) (reverse s)).

(** [String.prototype.trim]. *)
Definition trim (s : string) : string := trim_end (trim_start s).

Definition digit (c : ascii) : option Z :=
  let n := Z.of_nat (nat_of_ascii c) in
  if (48 <=? n) && (n <=? 57) then Some (n - 48) else None.

(** The longest run of decimal digits at the head of [s], read as an
    integer; [acc] is [None] until a first digit has been seen. *)
Fixpoint digits (acc : option Z) (s : string) : option Z :=
  match s with
  | EmptyString => acc
  | String c rest =>
      match digit c with
      | Some d =>
          digits (Some (10 * match acc with Some a => a | None => 0 end + d)) rest
      | None => acc
      end
  end.

(** [parseInt(s, 10)]: leading white space, an optional sign, then digits;
    [NaN] when there is no digit. *)
Definition parseInt (s : string) : number :=
  let t := trim_start s in
  let '(sign, body) :=
    match t with
    | String "-" rest => (-1, rest)
    | String "+" rest => (1, rest)
    | _ => (1, t)
    end in
  match digits None body with
  | Some n => Num (sign * n)
  | None => NaN
  end.

End Js.

(** ** The outside world *)

Record Cmd : Type := { tool : string; args : list string }.

(** The options of [exec.exec] the script sets.  [capture] stands for a
    [listeners.stdout] callback that collects the output. *)
Record ExecOptions : Type :=
  { ignoreReturnCode : bool; silent : bool; capture : bool }.

(** How a process ends: with an exit code and its standard output, or not at
    all because it could not be started (the executable is not on the PATH,
    spawning failed); [exec.exec] rejects in the latter case whatever the
    options. *)
Inductive Outcome : Type :=
| Exited (code : Z) (out : string)
| NotStarted (message : string).

(** Everything the script does to the outside, in the order it does it. *)
Inductive Event : Type :=
| Info (msg : string)
| LogError (msg : string)
| Warning (msg : string)
| StartGroup (name : string)
| EndGroup
| SetFailed (msg : string)
| SaveState (key value : string)
| SetOutput (key value : string)
| ExportVariable (key value : string)
| Exec (c : Cmd) (o : ExecOptions) (r : Outcome)
| Mkdir (path : string) (failure : option string)
| WriteFile (path content : string) (failure : option string)
| Now (t : Z)
| Sleep (ms : Z)
| Cleanup (failure : option string).

(** The log is kept newest first: the head is the latest effect. *)
Record World : Type := { clock : Z; log : list Event }.

Record Host : Type :=
  { getInput : string -> string;
    getState : string -> string;
    homedir : string;
    path_join : string -> string -> string;
    respond : list Event -> Cmd -> Outcome;
    exit_error : Cmd -> Z -> string;
    mkdir_result : list Event -> string -> option string;
    writeFile_result : list Event -> string -> string -> option string;
    cleanup_result : list Event -> option string;
    elapse : list Event -> Event -> N }.

(** ** The monad *)

Inductive Res (A : Type) : Type :=
| Val (a : A)
| Exn (message : string)
| Spin.

Arguments Val {A} a.
Arguments Exn {A} message.
Arguments Spin {A}.

Definition M (A : Type) : Type := World -> Res A * World.

Definition ret {A} (a : A) : M A := fun w => (Val a, w).

Definition bind {A B} (m : M A) (k : A -> M B) : M B :=
  fun w =>
    match m w with
    | (Val a, w') => k a w'
    | (Exn e, w') => (Exn e, w')
    | (Spin, w') => (Spin, w')
    end.

Definition throw {A} (message : string) : M A := fun w => (Exn message, w).

(** The loop ran out of fuel: the script is still running. *)
Definition spin {A} : M A := fun w => (Spin, w).

(** [try { m } catch (error) { handler error }]. *)
Definition try_catch {A} (m : M A) (handler : string -> M A) : M A :=
  fun w =>
    match m w with
    | (Exn e, w') => handler e w'
    | other => other
    end.

(** [try { m } finally { cleanup }]: the [finally] block runs when [m]
    completes, normally or not, and the completion of [m] is kept. *)
Definition try_finally {A} (m : M A) (cleanup : M unit) : M A :=
  fun w =>
    match m w with
    | (Spin, w') => (Spin, w')
    | (r, w') =>
        match cleanup w' with
        | (Val _, w'') => (r, w'')
        | (Exn e, w'') => (Exn e, w'')
        | (Spin, w'') => (Spin, w'')
        end
    end.

Declare Scope m_scope.
Delimit Scope m_scope with m.
Notation "x <- m ;; k" := (bind m (fun x => k))
  (at level 61, m at next level, right associativity) : m_scope.
Notation "m ;; k" := (bind m (fun _ => k))
  (at level 61, right associativity) : m_scope.
Open Scope m_scope.

(** ** Effects *)

Section Script.

Context (host : Host).

(** Every effect is appended to the log; the host says how long it took. *)
Definition perform (e : Event) : M unit :=
  fun w =>
    (Val tt,
     {| clock := clock w + Z.of_N (elapse host (log w) e);
        log := e :: log w |}).

Definition info (msg : string) : M unit := perform (Info msg).
Definition logError (msg : string) : M unit := perform (LogError msg).
Definition warning (msg : string) : M unit := perform (Warning msg).
Definition startGroup (name : string) : M unit := perform (StartGroup name).
Definition endGroup : M unit := perform EndGroup.
Definition setFailed (msg : string) : M unit := perform (SetFailed msg).
Definition saveState (key value : string) : M unit := perform (SaveState key value).
Definition setOutput (key value : string) : M unit := perform (SetOutput key value).
Definition exportVariable (key value : string) : M unit :=
  perform (ExportVariable key value).

(** [await exec.exec(tool, args, options)]: the exit code and the output
    handed to the listener.  A non-zero exit code rejects unless
    [ignoreReturnCode] is set; a process that cannot be started rejects
    always. *)
Definition exec (c : Cmd) (o : ExecOptions) : M (Z * string) :=
  fun w =>
    let r := respond host (log w) c in
    (perform (Exec c o r);;
     match r with
     | Exited code out =>
         if (code =? 0) || ignoreReturnCode o
         then ret (code, out)
         else throw (exit_error host c code)
     | NotStarted message => throw message
     end) w.

(** [Date.now()], in milliseconds.  The clock of a [World] never runs
    backwards ([elapse] is a natural number): a wall clock that is set back
    in the middle of a run is not modelled. *)
Definition Date_now : M Z :=
  fun w => (perform (Now (clock w));; ret (clock w)) w.

(** [await new Promise(resolve => setTimeout(resolve, ms))]: the timer
    fires after [ms] milliseconds, or later. *)
Definition sleep (ms : Z) : M unit :=
  fun w =>
    (Val tt,
     {| clock := clock w + ms + Z.of_N (elapse host (log w) (Sleep ms));
        log := Sleep ms :: log w |}).

Definition mkdir (path : string) : M unit :=
  fun w =>
    let r := mkdir_result host (log w) path in
    (perform (Mkdir path r);;
     match r with
     | None => ret tt
     | Some message => throw message
     end) w.

Definition writeFile (path content : string) : M unit :=
  fun w =>
    let r := writeFile_result host (log w) path content in
    (perform (WriteFile path content r);;
     match r with
     | None => ret tt
     | Some message => throw message
     end) w.

(** The post-run phase, [./cleanup], is outside this file: only whether it
    throws is visible here. *)
Definition cleanup : M unit :=
  fun w =>
    let r := cleanup_result host (log w) in
    (perform (Cleanup r);;
     match r with
     | None => ret tt
     | Some message => throw message
     end) w.

(** ** Commands and options *)

Definition dq : string := String (ascii_of_nat 34) EmptyString.

Definition default_opts : ExecOptions :=
  {| ignoreReturnCode := false; silent := false; capture := false |}.
Definition capture_opts : ExecOptions :=
  {| ignoreReturnCode := false; silent := false; capture := true |}.
Definition probe_opts : ExecOptions :=
  {| ignoreReturnCode := true; silent := true; capture := false |}.
Definition diag_opts : ExecOptions :=
  {| ignoreReturnCode := true; silent := false; capture := false |}.

Definition uname_cmd : Cmd := {| tool := "uname"; args := ["-m"] |}.

Definition resolve_cmd : Cmd :=
  {| tool := "bash";
     args := ["-c";
              "curl -sL https://api.github.com/repos/k0sproject/k0s/releases/latest | grep '"
                ++ dq ++ "tag_name" ++ dq ++ "' | cut -d'" ++ dq ++ "' -f4"] |}.

Definition tmpBinary : string := "/tmp/k0s".

Definition downloadUrl (actualVersion binaryArch : string) : string :=
  "https://github.com/k0sproject/k0s/releases/download/" ++ actualVersion
    ++ "/k0s-" ++ actualVersion ++ "-" ++ binaryArch.

Definition download_cmd (url : string) : Cmd :=
  {| tool := "curl"; args := ["-sfL"; url; "-o"; tmpBinary] |}.
Definition install_cmd : Cmd :=
  {| tool := "sudo"; args := ["install"; tmpBinary; "/usr/local/bin/k0s"] |}.
Definition rm_cmd : Cmd := {| tool := "rm"; args := ["-f"; tmpBinary] |}.
Definition verify_cmd : Cmd := {| tool := "k0s"; args := ["version"] |}.

Definition register_cmd : Cmd :=
  {| tool := "sudo"; args := ["k0s"; "install"; "controller"; "--single"] |}.
Definition start_cmd : Cmd := {| tool := "sudo"; args := ["k0s"; "start"] |}.
Definition kubeconfig_cmd : Cmd :=
  {| tool := "sudo"; args := ["k0s"; "kubeconfig"; "admin"] |}.
Definition chmod_cmd (path : string) : Cmd :=
  {| tool := "chmod"; args := ["600"; path] |}.

Definition status_cmd : Cmd := {| tool := "sudo"; args := ["k0s"; "status"] |}.
Definition cluster_info_cmd : Cmd :=
  {| tool := "kubectl"; args := ["cluster-info"] |}.
Definition nodes_cmd : Cmd :=
  {| tool := "bash";
     args := ["-c";
              "kubectl get nodes --no-headers | grep -v " ++ dq ++ " Ready " ++ dq] |}.
Definition pods_cmd : Cmd :=
  {| tool := "bash";
     args := ["-c";
              "kubectl get pods -n kube-system --no-headers | grep -v " ++ dq
                ++ "Running\|Completed" ++ dq] |}.

Definition journal_cmd : Cmd :=
  {| tool := "sudo";
     args := ["journalctl"; "-u"; "k0scontroller"; "-n"; "100"; "--no-pager"] |}.
Definition nodes_wide_cmd : Cmd :=
  {| tool := "kubectl"; args := ["get"; "nodes"; "-o"; "wide"] |}.
Definition pods_list_cmd : Cmd :=
  {| tool := "kubectl"; args := ["get"; "pods"; "-n"; "kube-system"] |}.

(** ** installK0s *)

(** The [switch (arch)] of [installK0s]; [None] is its [default] branch. *)
Definition mapArch (arch : string) : option string :=
  if (arch =? "x86_64")%string then Some "amd64"
  else if (arch =? "aarch64")%string then Some "arm64"
  else if (arch =? "arm64")%string then Some "arm64"
  else if (arch =? "armv7l")%string then Some "arm"
  else None.

Definition installK0s (version : string) : M unit :=
  startGroup "Installing k0s";;
  try_finally
    (try_catch
       (info ("Installing k0s " ++ version ++ "...");;
        archOutput <- exec uname_cmd capture_opts;;
        let arch := Js.trim (snd archOutput) in
        binaryArch <-
          match mapArch arch with
          | Some b => ret b
          | None => throw ("Unsupported architecture: " ++ arch)
          end;;
        info ("  Architecture: " ++ arch ++ " -> " ++ binaryArch);;
        actualVersion <-
          (if (version =? "latest")%string
           then
             info "Resolving latest version...";;
             versionOutput <- exec resolve_cmd capture_opts;;
             let actualVersion := Js.trim (snd versionOutput) in
             info ("  Latest version: " ++ actualVersion);;
             ret actualVersion
           else ret version);;
        let url := downloadUrl actualVersion binaryArch in
        info ("  Downloading from: " ++ url);;
        exec (download_cmd url) default_opts;;
        info "  Installing binary to /usr/local/bin/k0s...";;
        exec install_cmd default_opts;;
        exec rm_cmd default_opts;;
        info "  Verifying installation...";;
        exec verify_cmd default_opts;;
        info "✓ k0s installed successfully")
       (fun error => throw ("Failed to install k0s: " ++ Js.show_error error)))
    endGroup.

(** ** startK0s *)

Definition kubeconfigDir : string := path_join host (homedir host) ".kube".
Definition kubeconfigPath : string := path_join host kubeconfigDir "config".

Definition startK0s : M unit :=
  startGroup "Starting k0s cluster";;
  try_finally
    (try_catch
       (info "Starting k0s as controller...";;
        exec register_cmd default_opts;;
        exec start_cmd default_opts;;
        info "  Waiting for kubeconfig generation...";;
        sleep 10000;;
        try_catch (mkdir kubeconfigDir) (fun _ => ret tt);;
        info "  Extracting kubeconfig...";;
        kubeconfigContent <- exec kubeconfig_cmd capture_opts;;
        writeFile kubeconfigPath (snd kubeconfigContent);;
        exec (chmod_cmd kubeconfigPath) default_opts;;
        setOutput "kubeconfig" kubeconfigPath;;
        exportVariable "KUBECONFIG" kubeconfigPath;;
        info ("  KUBECONFIG exported: " ++ kubeconfigPath);;
        info "✓ k0s cluster started successfully")
       (fun error => throw ("Failed to start k0s: " ++ Js.show_error error)))
    endGroup.

(** ** showDiagnostics *)

Definition showDiagnostics : M unit :=
  startGroup "Diagnostic Information";;
  try_finally
    (try_catch
       (info "=== k0s Status ===";;
        exec status_cmd diag_opts;;
        info "=== k0s Controller Logs ===";;
        exec journal_cmd diag_opts;;
        info "=== Kubectl Cluster Info ===";;
        exec cluster_info_cmd diag_opts;;
        info "=== Nodes ===";;
        exec nodes_wide_cmd diag_opts;;
        info "=== Kube-system Pods ===";;
        exec pods_list_cmd diag_opts;;
        ret tt)
       (fun error =>
          warning ("Failed to gather diagnostics: " ++ Js.show_error error)))
    endGroup.

(** ** waitForClusterReady *)

(** The nested conditionals of one pass through the loop body: [true] when
    control reaches [break], [false] when it falls through to the sleep. *)
Definition checkLayers : M bool :=
  statusResult <- exec status_cmd probe_opts;;
  if fst statusResult =? 0 then
    info "  k0s is running";;
    kubectlResult <- exec cluster_info_cmd probe_opts;;
    if fst kubectlResult =? 0 then
      info "  kubectl can connect to API server";;
      nodesReady <- exec nodes_cmd probe_opts;;
      if negb (fst nodesReady =? 0) then
        info "  All nodes are Ready";;
        podsRunning <- exec pods_cmd probe_opts;;
        if negb (fst podsRunning =? 0) then
          info "  All kube-system pods are running";;
          ret true
        else
          info "  Some kube-system pods not running yet";;
          ret false
      else
        info "  Some nodes not Ready yet";;
        ret false
    else
      info "  kubectl cannot connect yet";;
      ret false
  else
    info "  k0s not running yet";;
    ret false.

Definition timeout_message : string := "Timeout waiting for cluster to be ready".

Inductive Next : Type := Break | Continue.

(** One pass through the body of [while (true)]. *)
Definition pollCycle (startTime : Z) (timeoutSeconds : Js.number) : M Next :=
  now <- Date_now;;
  let elapsed := (now - startTime) / 1000 in
  if Js.gt (Js.Num elapsed) timeoutSeconds then
    logError timeout_message;;
    showDiagnostics;;
    throw timeout_message
  else
    ready <- checkLayers;;
    if ready then ret Break
    else
      info ("  Cluster not ready yet, waiting... (" ++ Js.show_Z elapsed ++ "/"
              ++ Js.show_number timeoutSeconds ++ "s)");;
      sleep 5000;;
      ret Continue.

(** [while (true) { ... }], unrolled at most [fuel] times. *)
Fixpoint pollLoop (fuel : nat) (startTime : Z) (timeoutSeconds : Js.number)
  : M unit :=
  match fuel with
  | O => spin
  | S fuel' =>
      next <- pollCycle startTime timeoutSeconds;;
      match next with
      | Break => ret tt
      | Continue => pollLoop fuel' startTime timeoutSeconds
      end
  end.

Definition waitForClusterReady (fuel : nat) (timeoutSeconds : Js.number)
  : M unit :=
  startGroup "Waiting for cluster ready";;
  try_finally
    (try_catch
       (info ("Waiting for k0s cluster to be ready (timeout: "
                ++ Js.show_number timeoutSeconds ++ "s)...");;
        startTime <- Date_now;;
        pollLoop fuel startTime timeoutSeconds;;
        info "✓ k0s cluster is fully ready!")
       (fun error => throw ("Failed waiting for cluster: " ++ Js.show_error error)))
    endGroup.

(** ** main and run *)

Definition version_input : string := Js.or_else (getInput host "version") "latest".
Definition waitForReady_input : bool := (getInput host "wait-for-ready" =? "true")%string.
Definition timeout_input : Js.number :=
  Js.parseInt (Js.or_else (getInput host "timeout") "300").

Definition main (fuel : nat) : M unit :=
  try_catch
    (info "Starting k0s setup...";;
     saveState "isPost" "true";;
     let version := version_input in
     let waitForReady := waitForReady_input in
     let timeout := timeout_input in
     info ("Configuration: version=" ++ version ++ ", wait-for-ready="
             ++ Js.show_bool waitForReady ++ ", timeout="
             ++ Js.show_number timeout ++ "s");;
     installK0s version;;
     startK0s;;
     (if waitForReady then waitForClusterReady fuel timeout else ret tt);;
     info "✓ k0s setup completed successfully!")
    (fun error => throw error).

Definition run (fuel : nat) : M unit :=
  try_catch
    (let isPost := getState host "isPost" in
     if (isPost =? "true")%string then cleanup else main fuel)
    (fun message => setFailed message).

End Script.

(** ** Reading the log *)

Open Scope list_scope.

Definition cmd_eqb (a b : Cmd) : bool :=
  (tool a =? tool b)%string
  && (if list_eq_dec string_dec (args a) (args b) then true else false).

(** The events a run added to the log [before] it started with. *)
Definition added (before : list Event) (evs : list Event) (after : World) : Prop :=
  log after = evs ++ before.

Definition count (p : Event -> bool) (evs : list Event) : nat :=
  List.length (filter p evs).

(** [followed p q next evs]: in the newest-first list [evs], whose
    successor in time is [next], every event satisfying [p] is directly
    followed in time by one satisfying [q]. *)
Fixpoint followed (p q : Event -> bool) (next : option Event) (evs : list Event)
  : bool :=
  match evs with
  | [] => true
  | e :: older =>
      (if p e then match next with Some n => q n | None => false end else true)
      && followed p q (Some e) older
  end.

Definition is_resolution (e : Event) : bool :=
  match e with
  | Exec c _ _ => cmd_eqb c resolve_cmd
  | _ => false
  end.

Definition is_download (e : Event) : bool :=
  match e with
  | Exec c _ _ => (tool c =? "curl")%string
  | _ => false
  end.

(** How each version resolution of the run ended, newest first. *)
Definition resolutions (evs : list Event) : list Outcome :=
  flat_map (fun e => match e with
                     | Exec c _ r => if cmd_eqb c resolve_cmd then [r] else []
                     | _ => []
                     end) evs.

(** The download commands of the run, newest first. *)
Definition downloads (evs : list Event) : list Cmd :=
  flat_map (fun e => match e with
                     | Exec c _ _ => if (tool c =? "curl")%string then [c] else []
                     | _ => []
                     end) evs.


(** What the run published: step outputs and exported variables. *)
Definition published (evs : list Event) : list Event :=
  filter (fun e => match e with
                   | SetOutput _ _ | ExportVariable _ _ => true
                   | _ => false
                   end) evs.


(** [chmod 600 path] is run: from then on, if it exits with 0, the file at
    [path] can be read and written by its owner and by nobody else. *)
Definition is_restriction (path : string) (e : Event) : bool :=
  match e with
  | Exec {| tool := t; args := [mode; p] |} _ _ =>
      (t =? "chmod")%string && (mode =? "600")%string && (p =? path)%string
  | _ => false
  end.

(** [chmod 600 path] has been run and has exited with 0. *)
Definition is_restricted (path : string) (e : Event) : bool :=
  match e with
  | Exec {| tool := t; args := [mode; p] |} _ (Exited 0 _) =>
      (t =? "chmod")%string && (mode =? "600")%string && (p =? path)%string
  | _ => false
  end.



Definition is_installed (e : Event) : bool :=
  match e with
  | Exec c _ (Exited 0 _) => cmd_eqb c install_cmd
  | _ => false
  end.

Definition is_removal (e : Event) : bool :=
  match e with
  | Exec c _ _ => cmd_eqb c rm_cmd
  | _ => false
  end.

Definition is_removed (e : Event) : bool :=
  match e with
  | Exec c _ (Exited 0 _) => cmd_eqb c rm_cmd
  | _ => false
  end.

Definition is_verification (e : Event) : bool :=
  match e with
  | Exec c _ _ => cmd_eqb c verify_cmd
  | _ => false
  end.

Definition is_diagnostics (e : Event) : bool :=
  match e with
  | StartGroup name => (name =? "Diagnostic Information")%string
  | _ => false
  end.

(** The diagnostic probes of the run with their outcomes, newest first. *)
Definition diagnostic_probes (evs : list Event) : list (Cmd * Outcome) :=
  flat_map (fun e => match e with
                     | Exec c o r =>
                         if ignoreReturnCode o && negb (silent o) then [(c, r)] else []
                     | _ => []
                     end) evs.

Definition warnings (evs : list Event) : list string :=
  flat_map (fun e => match e with Warning msg => [msg] | _ => [] end) evs.

(** The deadline checks of the poller are its clock reads after the first,
    which only takes the start time. *)
Definition clock_reads (evs : list Event) : nat :=
  count (fun e => match e with Now _ => true | _ => false end) evs.

Definition deadline_checks (evs : list Event) : nat := Nat.pred (clock_reads evs).

(** Whatever belongs to the readiness poller or its diagnostics: its groups,
    its clock reads, its error and warning lines, its five-second sleeps and
    every process run with [ignoreReturnCode]. *)
Definition is_readiness (e : Event) : bool :=
  match e with
  | StartGroup name =>
      (name =? "Waiting for cluster ready")%string
      || (name =? "Diagnostic Information")%string
  | Now _ | LogError _ | Warning _ => true
  | Exec _ o _ => ignoreReturnCode o
  | Sleep ms => ms =? 5000
  | _ => false
  end.

Definition is_marker (e : Event) : bool :=
  match e with
  | SaveState _ _ => true
  | _ => false
  end.

(** The value the post-run phase reads back for [key]: the latest one
    saved, the empty string when none was. *)
Fixpoint saved_state (evs : list Event) (key : string) : string :=
  match evs with
  | [] => EmptyString
  | SaveState k v :: older => if (k =? key)%string then v else saved_state older key
  | _ :: older => saved_state older key
  end.

(** The clock readings of the run, oldest first. *)
Definition clock_readings (evs : list Event) : list Z :=
  rev (flat_map (fun e => match e with Now t => [t] | _ => [] end) evs).

(** The five diagnostic probes, in the order [showDiagnostics] runs them. *)
Definition diagnostic_cmds : list Cmd :=
  [status_cmd; journal_cmd; cluster_info_cmd; nodes_wide_cmd; pods_list_cmd].

(** The first probe, in time, that could not be started. *)
Fixpoint first_not_started (probes : list (Cmd * Outcome)) : option (Cmd * string) :=
  match probes with
  | [] => None
  | (c, NotStarted message) :: _ => Some (c, message)
  | _ :: rest => first_not_started rest
  end.

(** The world once [e] has been performed. *)
Definition after (host : Host) (e : Event) (w : World) : World :=
  snd (perform host e w).

Definition config_message (host : Host) : string :=
  ("Configuration: version=" ++ version_input host ++ ", wait-for-ready="
     ++ Js.show_bool (waitForReady_input host) ++ ", timeout="
     ++ Js.show_number (timeout_input host) ++ "s")%string.

(** What [main] does before it calls [installK0s], newest first. *)
Definition preamble (host : Host) : list Event :=
  [ Info (config_message host);
    SaveState "isPost" "true";
    Info "Starting k0s setup..." ].

(** The world in which [main] calls [installK0s]. *)
Definition started (host : Host) (w : World) : World :=
  after host (Info (config_message host))
    (after host (SaveState "isPost" "true")
       (after host (Info "Starting k0s setup...") w)).

Definition done_message : string := "✓ k0s setup completed successfully!".

(** ** Footprints

    [emits q m]: whatever the host answers, [m] only appends to the log,
    every event it appends satisfies [q], and the clock does not go back. *)

Definition emits {A} (q : Event -> bool) (m : M A) : Prop :=
  forall w, exists evs,
    log (snd (m w)) = evs ++ log w
    /\ forallb q evs = true
    /\ clock w <= clock (snd (m w)).

(** The events of the four-layer check: log lines and silent probes. *)
Definition layer_event (e : Event) : bool :=
  match e with
  | Info _ => true
  | Exec _ o _ => silent o && ignoreReturnCode o
  | _ => false
  end.

(** An over-approximation of the events each phase can produce, by the
    classes of events it never produces. *)
Definition install_event (e : Event) : bool :=
  negb (is_readiness e) && negb (is_marker e)
  && match e with
     | WriteFile _ _ _ | SetOutput _ _ | ExportVariable _ _ | Sleep _
     | Mkdir _ _ | Cleanup _ | SetFailed _ => false
     | _ => true
     end.

Definition start_event (e : Event) : bool :=
  negb (is_readiness e) && negb (is_marker e)
  && negb (is_resolution e) && negb (is_download e)
  && match e with
     | Cleanup _ | SetFailed _ => false
     | _ => true
     end.

Definition wait_event (e : Event) : bool :=
  negb (is_marker e) && negb (is_resolution e) && negb (is_download e)
  && match e with
     | WriteFile _ _ _ | SetOutput _ _ | ExportVariable _ _
     | Mkdir _ _ | Cleanup _ | SetFailed _ => false
     | _ => true
     end.

Definition is_timeout (e : Event) : bool :=
  match e with
  | LogError _ => true
  | _ => false
  end.

Definition is_clock_read (e : Event) : bool :=
  match e with
  | Now _ => true
  | _ => false
  end.

(** The events of a poller whose deadline never fires. *)
Definition calm_event (e : Event) : bool :=
  wait_event e && negb (is_timeout e) && negb (is_diagnostics e).

(** ** Probe results under which the cluster never becomes ready

    Whenever the four layers are checked, every probe gives a result and
    they do not all pass. *)
Definition never_ready (host : Host) : Prop :=
  forall w, fst (checkLayers host w) = Val false.

(** ** Some runners *)

Module Runner.

Definition nl : string := String (ascii_of_nat 10) EmptyString.

(** A runner whose processes answer as [answer] says and where nothing
    else fails and nothing takes time but the sleeps. *)
Definition make (inputs : string -> string)
  (answer : list Event -> Cmd -> Outcome) : Host :=
  {| getInput := inputs;
     getState := fun _ => EmptyString;
     homedir := "/home/runner";
     path_join := fun a b => (a ++ "/" ++ b)%string;
     respond := answer;
     exit_error := fun c code =>
       ("The process '" ++ tool c ++ "' failed with exit code "
          ++ Js.show_Z code)%string;
     mkdir_result := fun _ _ => None;
     writeFile_result := fun _ _ _ => None;
     cleanup_result := fun _ => None;
     elapse := fun _ _ => 0%N |}.

Definition no_inputs : string -> string := fun _ => EmptyString.

Definition wait_inputs (timeout : string) : string -> string :=
  fun key =>
    if (key =? "wait-for-ready")%string then "true"
    else if (key =? "timeout")%string then timeout
    else EmptyString.

(** An x86_64 machine on which every command succeeds and the cluster is
    ready at once. *)
Definition healthy_answer : list Event -> Cmd -> Outcome :=
  fun _ c =>
    if cmd_eqb c uname_cmd then Exited 0 ("x86_64" ++ nl)
    else if cmd_eqb c resolve_cmd then Exited 0 ("v1.30.0+k0s.0" ++ nl)
    else if cmd_eqb c nodes_cmd then Exited 1 EmptyString
    else if cmd_eqb c pods_cmd then Exited 1 EmptyString
    else Exited 0 EmptyString.

Definition healthy : Host := make (wait_inputs "60") healthy_answer.

(** The same machine with readiness not asked for ("True" is not "true"). *)
Definition unwaited : Host :=
  make (fun key => if (key =? "wait-for-ready")%string then "True" else EmptyString)
       healthy_answer.

(** The service never comes up: [k0s status] exits with 1. *)
Definition down_answer : list Event -> Cmd -> Outcome :=
  fun l c =>
    if cmd_eqb c status_cmd then Exited 1 EmptyString else healthy_answer l c.

Definition down (timeout : string) : Host := make (wait_inputs timeout) down_answer.

(** The same with no [kubectl] on the PATH. *)
Definition no_kubectl : Host :=
  make (wait_inputs "0")
    (fun l c =>
       if (tool c =? "kubectl")%string
       then NotStarted "Unable to locate executable file: kubectl"
       else down_answer l c).

(** A machine of an architecture that has no k0s binary. *)
Definition riscv : Host :=
  make no_inputs
    (fun l c =>
       if cmd_eqb c uname_cmd then Exited 0 ("riscv64" ++ nl)
       else healthy_answer l c).

(** The privileged install fails. *)
Definition broken_install : Host :=
  make no_inputs
    (fun l c =>
       if cmd_eqb c install_cmd then Exited 1 EmptyString
       else healthy_answer l c).

(** The verification of the installed binary fails. *)
Definition broken_binary : Host :=
  make no_inputs
    (fun l c =>
       if cmd_eqb c verify_cmd then Exited 126 EmptyString
       else healthy_answer l c).


(** The number of poll cycles completed so far. *)
Definition cycles_done (l : list Event) : nat :=
  count (fun e => match e with Sleep 5000 => true | _ => false end) l.

(** The end-to-end scenario of the spec: a pinned version, readiness asked
    for, a timeout of sixty seconds. *)
Definition pinned : Host :=
  make (fun key =>
          if (key =? "version")%string then "v1.30.0+k0s.0"
          else wait_inputs "60" key)
       healthy_answer.

(** A node that flaps: in the first cycle the nodes are ready and a pod is
    not; from the second cycle on the pods are fine and a node is not. *)
Definition flapping : Host :=
  make (wait_inputs "7")
    (fun l c =>
       if cmd_eqb c nodes_cmd
       then (if Nat.eqb (cycles_done l) 0 then Exited 1 EmptyString
             else Exited 0 "node0 NotReady")
       else if cmd_eqb c pods_cmd
       then (if Nat.eqb (cycles_done l) 0 then Exited 0 "coredns Pending"
             else Exited 1 EmptyString)
       else healthy_answer l c).

(** The runner of the post-run invocation: it hands back the state that
    the main phase saved. *)
Definition post (main_log : list Event) : Host :=
  {| getInput := no_inputs;
     getState := saved_state main_log;
     homedir := "/home/runner";
     path_join := fun a b => (a ++ "/" ++ b)%string;
     respond := healthy_answer;
     exit_error := fun c code =>
       ("The process '" ++ tool c ++ "' failed with exit code "
          ++ Js.show_Z code)%string;
     mkdir_result := fun _ _ => None;
     writeFile_result := fun _ _ _ => None;
     cleanup_result := fun _ => None;
     elapse := fun _ _ => 0%N |}.

(** A fresh process: nothing has happened yet. *)
Definition boot : World := {| clock := 0; log := [] |}.

End Runner.

(** All four layers passed together: starting from the log [l0], the four
    probes were run one after the other, each answered by the host at that
    very moment, the service and the API with exit code 0 and the two
    [grep -v] pipelines with a non-zero one, and [l4] is the log after the
    fourth. *)
Definition passed_together (host : Host) (l0 l4 : list Event) : Prop :=
  exists o1 o2 c3 o3 c4 o4,
    let l1 := Info "  k0s is running"
                :: Exec status_cmd probe_opts (Exited 0 o1) :: l0 in
    let l2 := Info "  kubectl can connect to API server"
                :: Exec cluster_info_cmd probe_opts (Exited 0 o2) :: l1 in
    let l3 := Info "  All nodes are Ready"
                :: Exec nodes_cmd probe_opts (Exited c3 o3) :: l2 in
    l4 = Info "  All kube-system pods are running"
           :: Exec pods_cmd probe_opts (Exited c4 o4) :: l3
    /\ respond host l0 status_cmd = Exited 0 o1
    /\ respond host l1 cluster_info_cmd = Exited 0 o2
    /\ respond host l2 nodes_cmd = Exited c3 o3 /\ c3 <> 0
    /\ respond host l3 pods_cmd = Exited c4 o4 /\ c4 <> 0.

(** ** The claims that do not hold, as they are stated *)

(** The scratch file is removed whatever happens after the download: every
    run of the installer that has started the download also runs the
    removal. *)
Definition removed_whatever_happens (host : Host) (version : string) (w : World)
  : Prop :=
  forall evs, added (log w) evs (snd (installK0s host version w)) ->
    existsb is_download evs = true -> existsb is_removal evs = true.

(** Every diagnostic probe is attempted even when another one fails. *)
Definition all_probes_attempted (evs : list Event) : Prop :=
  map fst (rev (diagnostic_probes evs)) = diagnostic_cmds.

(** With a timeout of zero the poller times out at its first deadline check
    at the latest. *)
Definition times_out_by_first_check (host : Host) (w : World) : Prop :=
  exists fuel message w' evs,
    waitForClusterReady host fuel (Js.Num 0) w = (Exn message, w')
    /\ added (log w) evs w'
    /\ (deadline_checks evs <= 1)%nat.


(** ** Further views of the log *)

(** The processes of the run with their outcomes, oldest first. *)
Definition processes (evs : list Event) : list (Cmd * Outcome) :=
  rev (flat_map (fun e => match e with
                          | Exec c _ r => [(c, r)]
                          | _ => []
                          end) evs).

(** The process exited with code 0. *)
Definition succeeded (p : Cmd * Outcome) : bool :=
  match snd p with
  | Exited 0 _ => true
  | _ => false
  end.

(** [p] holds of every element but, possibly, the last. *)
Fixpoint all_but_last {A} (p : A -> bool) (l : list A) : bool :=
  match l with
  | [] => true
  | x :: rest =>
      match rest with
      | [] => true
      | _ => p x && all_but_last p rest
      end
  end.

(** The function returned normally. *)
Definition returned {A} (r : Res A) : bool :=
  match r with
  | Val _ => true
  | _ => false
  end.

(** The processes [installK0s] runs when nothing fails, in order. *)
Definition install_plan (version actualVersion binaryArch : string) : list Cmd :=
  uname_cmd
    :: (if (version =? "latest")%string then [resolve_cmd] else [])
    ++ [download_cmd (downloadUrl actualVersion binaryArch);
        install_cmd; rm_cmd; verify_cmd].

(** The processes [startK0s] runs when nothing fails, in order. *)
Definition start_plan (host : Host) : list Cmd :=
  [register_cmd; start_cmd; kubeconfig_cmd; chmod_cmd (kubeconfigPath host)].

(** The four probes of a poll cycle, in order. *)
Definition layer_cmds : list Cmd :=
  [status_cmd; cluster_info_cmd; nodes_cmd; pods_cmd].

(** What the loop body takes as a pass: exit code 0 for the service and the
    API probes, a non-zero exit code for the two [grep -v] pipelines. *)
Definition layer_passed (p : Cmd * Outcome) : bool :=
  match snd p with
  | Exited code _ =>
      if cmd_eqb (fst p) status_cmd || cmd_eqb (fst p) cluster_info_cmd
      then code =? 0
      else negb (code =? 0)
  | NotStarted _ => false
  end.

(** The probes of the poll cycles: the processes run silently. *)
Definition is_layer_probe (e : Event) : bool :=
  match e with
  | Exec _ o _ => silent o
  | _ => false
  end.

Definition is_cleanup (e : Event) : bool :=
  match e with
  | Cleanup _ => true
  | _ => false
  end.

(** The failures reported with [core.setFailed], newest first. *)
Definition failures (evs : list Event) : list string :=
  flat_map (fun e => match e with SetFailed msg => [msg] | _ => [] end) evs.

Definition is_group (e : Event) : bool :=
  match e with
  | StartGroup _ | EndGroup => true
  | _ => false
  end.

(** Reading the newest-first log from its head, [closes pending evs]
    matches every [EndGroup] with the [StartGroup] that opened it;
    [pending] groups are closed and not yet matched.  [None]: a group was
    opened inside another and closed after it, or never closed. *)
Fixpoint closes (pending : nat) (evs : list Event) : option nat :=
  match evs with
  | [] => Some pending
  | EndGroup :: older => closes (S pending) older
  | StartGroup _ :: older =>
      match pending with
      | O => None
      | S n => closes n older
      end
  | _ :: older => closes pending older
  end.

(** Every log group that was opened has been closed, and groups nest. *)
Definition balanced (evs : list Event) : Prop := closes 0 evs = Some 0%nat.

(** [tidy m]: [m] only appends to the log and, unless it is still running,
    leaves no log group open. *)
Definition tidy {A} (m : M A) : Prop :=
  forall w, exists evs,
    log (snd (m w)) = evs ++ log w
    /\ (fst (m w) <> Spin -> balanced evs).

(** The five-second pause of the poller. *)
Definition is_pause (e : Event) : bool :=
  match e with
  | Sleep ms => ms =? 5000
  | _ => false
  end.

(** Neither a pause nor a clock read. *)
Definition is_neither (e : Event) : bool :=
  match e with
  | Sleep _ | Now _ => false
  | _ => true
  end.

(** The error with which an effect rejected, if it did. *)
Definition rejection (host : Host) (e : Event) : option string :=
  match e with
  | Exec c o (Exited code _) =>
      if (code =? 0) || ignoreReturnCode o then None
      else Some (exit_error host c code)
  | Exec _ _ (NotStarted message) => Some message
  | Mkdir _ failure | WriteFile _ _ failure | Cleanup failure => failure
  | _ => None
  end.

(** What [run] dispatches to. *)
Definition phase (host : Host) (fuel : nat) : M unit :=
  if (getState host "isPost" =? "true")%string then cleanup host else main host fuel.

(** The marks of the launcher in the log. *)
Definition is_launcher (e : Event) : bool :=
  match e with
  | StartGroup name => (name =? "Starting k0s cluster")%string
  | Exec c _ _ => cmd_eqb c register_cmd || cmd_eqb c start_cmd
                  || cmd_eqb c kubeconfig_cmd
  | Sleep ms => ms =? 10000
  | Mkdir _ _ | WriteFile _ _ _ | SetOutput _ _ | ExportVariable _ _ => true
  | _ => false
  end.

Definition is_service_started (e : Event) : bool :=
  match e with
  | Exec c _ (Exited 0 _) => cmd_eqb c start_cmd
  | _ => false
  end.

Definition is_extraction (e : Event) : bool :=
  match e with
  | Exec c _ _ => cmd_eqb c kubeconfig_cmd
  | _ => false
  end.

Definition is_mkdir (host : Host) (e : Event) : bool :=
  match e with
  | Mkdir path _ => (path =? kubeconfigDir host)%string
  | _ => false
  end.

(** The closing line of a successful run. *)
Definition is_done (e : Event) : bool :=
  match e with
  | Info msg => (msg =? done_message)%string
  | _ => false
  end.

(** ** Symbolic execution of the straight-line parts *)

Ltac symex_unfold :=
  cbv beta iota zeta delta
    [installK0s startK0s showDiagnostics checkLayers pollCycle
     bind ret throw try_catch try_finally exec perform info logError warning
     startGroup endGroup setOutput exportVariable saveState sleep mkdir
     writeFile Date_now fst snd log clock ignoreReturnCode
     default_opts capture_opts probe_opts diag_opts negb].

Ltac symex_case :=
  match goal with
  | |- context [(_ || true)%bool] => rewrite orb_true_r
  | |- context [(_ || false)%bool] => rewrite orb_false_r
  | |- context [respond ?h ?l ?c] =>
      destruct (respond h l c) as [?code ?out | ?msg] eqn:?
  | |- context [(?z =? 0)%Z] => destruct (Z.eqb_spec z 0); [subst z | ]
  | |- context [mapArch ?a] => destruct (mapArch a) eqn:?
  | |- context [String.eqb ?a ?b] => destruct (String.eqb_spec a b)
  | |- context [mkdir_result ?h ?l ?p] => destruct (mkdir_result h l p) eqn:?
  | |- context [writeFile_result ?h ?l ?p ?c] =>
      destruct (writeFile_result h l p c) eqn:?
  end; symex_unfold.

Ltac symex := symex_unfold; repeat symex_case.

(** An exit code that is not 0 is positive or negative. *)
Ltac zero_or_not :=
  repeat match goal with
         | n : ?c <> 0 |- _ => destruct c; [ congruence | | ]; clear n
         end.

(** * Properties *)

Lemma cmd_eqb_eq (a b : Cmd) : cmd_eqb a b = true <-> a = b.
Proof.
  destruct a as [ta aa], b as [tb ab]; unfold cmd_eqb; simpl.
  rewrite andb_true_iff, String.eqb_eq.
  destruct (list_eq_dec string_dec aa ab) as [Heq | Hne]; split.
  - intros [Htool _]; congruence.
  - intros Hc; split; congruence.
  - intros [_ Hfalse]; discriminate.
  - intros Hc; exfalso; apply Hne; congruence.
Qed.

(** ** Footprint lemmas *)

Section Footprint.

Context (host : Host) (q : Event -> bool).

Lemma emits_ret {A} (a : A) : emits q (ret a).
Proof. intros w; exists []; simpl; repeat split; lia. Qed.

Lemma emits_throw {A} (e : string) : emits q (@throw A e).
Proof. intros w; exists []; simpl; repeat split; lia. Qed.

Lemma emits_spin {A} : emits q (@spin A).
Proof. intros w; exists []; simpl; repeat split; lia. Qed.

Lemma emits_bind {A B} (m : M A) (k : A -> M B) :
  emits q m -> (forall a, emits q (k a)) -> emits q (bind m k).
Proof.
  intros Hm Hk w. unfold bind.
  destruct (Hm w) as (evs & Hlog & Hq & Hclk).
  destruct (m w) as [[a | e | ] w1]; simpl in *.
  - destruct (Hk a w1) as (evs' & Hlog' & Hq' & Hclk').
    exists (evs' ++ evs). rewrite Hlog', Hlog, forallb_app, Hq, Hq', app_assoc.
    repeat split; lia.
  - exists evs; auto.
  - exists evs; auto.
Qed.

Lemma emits_try_catch {A} (m : M A) (handler : string -> M A) :
  emits q m -> (forall e, emits q (handler e)) -> emits q (try_catch m handler).
Proof.
  intros Hm Hh w. unfold try_catch.
  destruct (Hm w) as (evs & Hlog & Hq & Hclk).
  destruct (m w) as [[a | e | ] w1]; simpl in *.
  - exists evs; auto.
  - destruct (Hh e w1) as (evs' & Hlog' & Hq' & Hclk').
    exists (evs' ++ evs). rewrite Hlog', Hlog, forallb_app, Hq, Hq', app_assoc.
    repeat split; lia.
  - exists evs; auto.
Qed.

Lemma emits_try_finally {A} (m : M A) (fin : M unit) :
  emits q m -> emits q fin -> emits q (try_finally m fin).
Proof.
  intros Hm Hf w. unfold try_finally.
  destruct (Hm w) as (evs & Hlog & Hq & Hclk).
  destruct (Hf (snd (m w))) as (evs' & Hlog' & Hq' & Hclk').
  destruct (m w) as [[a | e | ] w1]; simpl in *;
    try (exists evs; now auto);
    destruct (fin w1) as [[[] | e' | ] w2]; simpl in *;
    exists (evs' ++ evs); rewrite Hlog', Hlog, forallb_app, Hq, Hq', app_assoc;
    repeat split; lia.
Qed.

Lemma emits_perform (e : Event) : q e = true -> emits q (perform host e).
Proof.
  intros He w; exists [e]; simpl; rewrite He; repeat split; lia.
Qed.

Lemma emits_sleep (ms : Z) : 0 <= ms -> q (Sleep ms) = true -> emits q (sleep host ms).
Proof.
  intros Hms He w; exists [Sleep ms]; simpl; rewrite He; repeat split; lia.
Qed.

Lemma emits_Date_now : (forall t, q (Now t) = true) -> emits q (Date_now host).
Proof.
  intros He w; exists [Now (clock w)]; simpl; rewrite He; repeat split; lia.
Qed.

Lemma emits_exec (c : Cmd) (o : ExecOptions) :
  (forall r, q (Exec c o r) = true) -> emits q (exec host c o).
Proof.
  intros He w; exists [Exec c o (respond host (log w) c)].
  unfold exec, bind; simpl.
  destruct (respond host (log w) c) eqn:Hr; simpl;
    [destruct ((code =? 0) || ignoreReturnCode o) | ]; simpl;
    rewrite <- ?Hr, He; repeat split; lia.
Qed.

Lemma emits_mkdir (path : string) :
  (forall r, q (Mkdir path r) = true) -> emits q (mkdir host path).
Proof.
  intros He w; exists [Mkdir path (mkdir_result host (log w) path)].
  unfold mkdir, bind; simpl.
  destruct (mkdir_result host (log w) path) eqn:Hr; simpl;
    rewrite <- ?Hr, He; repeat split; lia.
Qed.

Lemma emits_writeFile (path content : string) :
  (forall r, q (WriteFile path content r) = true) ->
  emits q (writeFile host path content).
Proof.
  intros He w; exists [WriteFile path content (writeFile_result host (log w) path content)].
  unfold writeFile, bind; simpl.
  destruct (writeFile_result host (log w) path content) eqn:Hr; simpl;
    rewrite <- ?Hr, He; repeat split; lia.
Qed.

End Footprint.

(** Breaks a footprint goal down along the structure of the script; the
    side conditions on [q] are closed by computation. *)
Ltac footprint :=
  repeat first
    [ apply emits_ret | apply emits_throw | apply emits_spin
    | apply emits_perform; reflexivity
    | apply emits_sleep; [lia | reflexivity]
    | apply emits_Date_now; intros; reflexivity
    | apply emits_exec; intros; reflexivity
    | apply emits_mkdir; intros; reflexivity
    | apply emits_writeFile; intros; reflexivity
    | apply emits_bind; [ | intros ]
    | apply emits_try_catch; [ | intros ]
    | apply emits_try_finally
    | match goal with
      | |- emits _ (match ?x with _ => _ end) => destruct x
      | |- emits _ (if ?b then _ else _) => destruct b
      end ].

Lemma emits_weaken {A} (q q' : Event -> bool) (m : M A) :
  (forall e, q e = true -> q' e = true) -> emits q m -> emits q' m.
Proof.
  intros Hqq Hm w. destruct (Hm w) as (evs & Hlog & Hq & Hclk).
  exists evs; repeat split; auto.
  rewrite forallb_forall in *; auto.
Qed.

Section Footprints.

Context (host : Host).

Lemma emits_installK0s (version : string) :
  emits install_event (installK0s host version).
Proof.
  unfold installK0s, info, startGroup, endGroup; footprint.
Qed.

Lemma emits_startK0s : emits start_event (startK0s host).
Proof.
  unfold startK0s, info, startGroup, endGroup, setOutput, exportVariable.
  footprint.
Qed.

Lemma emits_showDiagnostics : emits wait_event (showDiagnostics host).
Proof.
  unfold showDiagnostics, info, warning, startGroup, endGroup; footprint.
Qed.

Lemma emits_checkLayers : emits wait_event (checkLayers host).
Proof.
  unfold checkLayers, info; footprint.
Qed.

Lemma emits_pollCycle (startTime : Z) (timeoutSeconds : Js.number) :
  emits wait_event (pollCycle host startTime timeoutSeconds).
Proof.
  unfold pollCycle, info, logError.
  apply emits_bind; [ footprint | intros now ].
  destruct (Js.gt _ _).
  - apply emits_bind; [ footprint | intros _ ].
    apply emits_bind; [ apply emits_showDiagnostics | intros _ ]. footprint.
  - apply emits_bind; [ apply emits_checkLayers | intros [] ]; footprint.
Qed.

Lemma emits_pollLoop (fuel : nat) (startTime : Z) (timeoutSeconds : Js.number) :
  emits wait_event (pollLoop host fuel startTime timeoutSeconds).
Proof.
  induction fuel as [ | fuel IH]; simpl; [ footprint | ].
  apply emits_bind; [ apply emits_pollCycle | intros [] ]; [ footprint | exact IH ].
Qed.

Lemma emits_waitForClusterReady (fuel : nat) (timeoutSeconds : Js.number) :
  emits wait_event (waitForClusterReady host fuel timeoutSeconds).
Proof.
  unfold waitForClusterReady, info, startGroup, endGroup.
  apply emits_bind; [ footprint | intros _ ].
  apply emits_try_finally; [ | footprint ].
  apply emits_try_catch; [ | intros; footprint ].
  apply emits_bind; [ footprint | intros _ ].
  apply emits_bind; [ footprint | intros startTime ].
  apply emits_bind; [ apply emits_pollLoop | intros _ ]. footprint.
Qed.

End Footprints.

(** ** Helpers on logs *)

Lemma added_nil (before : list Event) : before = [] ++ before.
Proof. reflexivity. Qed.

Lemma added_cons (e : Event) (l evs before : list Event) :
  l = evs ++ before -> e :: l = (e :: evs) ++ before.
Proof. intros ->; reflexivity. Qed.

(** Splits a concrete log [e1 :: ... :: en :: before] into what was added
    and what was there. *)
Ltac split_log := repeat apply added_cons; apply added_nil.

(** Equal lists up to the bracketing of their concatenations. *)
Ltac assoc := repeat (cbn [app]; rewrite <- ?app_assoc); reflexivity.

Lemma resolutions_app (l1 l2 : list Event) :
  resolutions (l1 ++ l2) = resolutions l1 ++ resolutions l2.
Proof. apply flat_map_app. Qed.

Lemma downloads_app (l1 l2 : list Event) :
  downloads (l1 ++ l2) = downloads l1 ++ downloads l2.
Proof. apply flat_map_app. Qed.



Lemma count_app (p : Event -> bool) (l1 l2 : list Event) :
  count p (l1 ++ l2) = (count p l1 + count p l2)%nat.
Proof. unfold count; rewrite filter_app; apply length_app. Qed.

(** ** The installer *)

Lemma mapArch_cases (arch : string) :
  (arch = "x86_64" /\ mapArch arch = Some "amd64")
  \/ ((arch = "aarch64" \/ arch = "arm64") /\ mapArch arch = Some "arm64")
  \/ (arch = "armv7l" /\ mapArch arch = Some "arm")
  \/ (arch <> "x86_64" /\ arch <> "aarch64" /\ arch <> "arm64"
      /\ arch <> "armv7l" /\ mapArch arch = None).
Proof.
  unfold mapArch.
  destruct (String.eqb_spec arch "x86_64"); [ now left | ].
  destruct (String.eqb_spec arch "aarch64"); [ right; left; tauto | ].
  destruct (String.eqb_spec arch "arm64"); [ right; left; tauto | ].
  destruct (String.eqb_spec arch "armv7l"); [ right; right; left; tauto | ].
  right; right; right; tauto.
Qed.

(** C2. Whatever string the architecture probe returns, the switch of
    [installK0s] sends x86_64 to amd64, aarch64 and arm64 to arm64, armv7l
    to arm and nothing else to a token.  When the trimmed probe output is
    one of the four, every download of the run names the binary by that
    token.  When it is none of them, [installK0s] fails with
    "Failed to install k0s: Error: Unsupported architecture: <arch>" and
    the probe is the only process it has run: neither the version
    resolution nor the download was started. *)
Theorem arch_mapping_total (host : Host) (version out : string) (w : World) :
  respond host
    (Info ("Installing k0s " ++ version ++ "...")%string
       :: StartGroup "Installing k0s" :: log w) uname_cmd = Exited 0 out ->
  let arch := Js.trim out in
  let result := installK0s host version w in
  (arch = "x86_64" -> mapArch arch = Some "amd64")
  /\ (arch = "aarch64" \/ arch = "arm64" -> mapArch arch = Some "arm64")
  /\ (arch = "armv7l" -> mapArch arch = Some "arm")
  /\ (forall token, mapArch arch = Some token ->
        exists evs, added (log w) evs (snd result)
          /\ forall c, In c (downloads evs) ->
               exists v, c = download_cmd (downloadUrl v token))
  /\ (arch <> "x86_64" -> arch <> "aarch64" -> arch <> "arm64" ->
      arch <> "armv7l" ->
        mapArch arch = None
        /\ fst result
           = Exn ("Failed to install k0s: Error: Unsupported architecture: "
                    ++ arch)%string
        /\ log (snd result)
           = EndGroup
               :: Exec uname_cmd capture_opts (Exited 0 out)
               :: Info ("Installing k0s " ++ version ++ "...")%string
               :: StartGroup "Installing k0s" :: log w).
Proof.
  intros Hprobe arch result.
  split; [ intros E; rewrite E; reflexivity | ].
  split; [ intros [E | E]; rewrite E; reflexivity | ].
  split; [ intros E; rewrite E; reflexivity | ].
  destruct w as [clk lg]; cbn [log] in Hprobe.
  split.
  - intros token Htoken. subst result arch.
    set (P := fun rw : Res unit * World =>
                exists evs, added lg evs (snd rw)
                  /\ forall c, In c (downloads evs) ->
                       exists v, c = download_cmd (downloadUrl v token)).
    change (P (installK0s host version {| clock := clk; log := lg |})).
    symex_unfold; rewrite Hprobe, Z.eqb_refl, orb_true_l; symex_unfold; rewrite Htoken; symex.
    all: subst P; cbv beta; unfold added; cbn [snd log].
    all: eexists; split; [ split_log | ].
    all: cbn; intros c Hc; intuition (subst; eauto).
  - intros N1 N2 N3 N4.
    destruct (mapArch_cases arch) as [[? _] | [[[? | ?] _] | [[? _] | (_ & _ & _ & _ & Hnone)]]];
      try contradiction.
    split; [ exact Hnone | ].
    subst result; fold arch. unfold arch in Hnone.
    symex_unfold; rewrite Hprobe, Z.eqb_refl, orb_true_l; symex_unfold; rewrite Hnone; symex_unfold.
    split; reflexivity.
Qed.

Lemma arch_mapping_total_witness :
  fst (installK0s Runner.riscv "latest" Runner.boot)
  = Exn "Failed to install k0s: Error: Unsupported architecture: riscv64".
Proof.
  refine (proj1 (proj2
    (proj2 (proj2 (proj2 (proj2
      (arch_mapping_total Runner.riscv "latest" ("riscv64" ++ Runner.nl)%string
         Runner.boot eq_refl))))
      _ _ _ _))); vm_compute; discriminate.
Defined.

(** C5 (amended). The removal of the scratch file is one more step of the
    straight-line sequence, not a cleanup that runs whatever happens:
    [installK0s] runs [rm -f /tmp/k0s] exactly when the privileged install
    has succeeded, and then directly after it, at most once.  The
    verification therefore only ever runs after a successful removal, so
    the scratch file is gone when the verification fails. *)
Theorem removal_follows_install (host : Host) (version : string) (w : World) :
  exists evs, added (log w) evs (snd (installK0s host version w))
    /\ existsb is_removal evs = existsb is_installed evs
    /\ followed is_installed is_removal None evs = true
    /\ (count is_removal evs <= 1)%nat
    /\ (existsb is_verification evs = true -> existsb is_removed evs = true).
Proof.
  destruct w as [clk lg].
  set (P := fun rw : Res unit * World =>
              exists evs, added lg evs (snd rw)
                /\ existsb is_removal evs = existsb is_installed evs
                /\ followed is_installed is_removal None evs = true
                /\ (count is_removal evs <= 1)%nat
                /\ (existsb is_verification evs = true ->
                    existsb is_removed evs = true)).
  change (P (installK0s host version {| clock := clk; log := lg |})).
  symex.
  all: subst P; cbv beta; unfold added; cbn [snd log].
  all: eexists; split; [ split_log | ].
  all: repeat match goal with
             | n : ?c <> 0 |- _ => destruct c; [ congruence | | ]; clear n
             end.
  all: cbn; repeat split; auto; try lia; try discriminate.
Qed.

Lemma removal_follows_install_witness :
  existsb is_removed (log (snd (installK0s Runner.broken_binary "latest" Runner.boot)))
  = true.
Proof.
  destruct (removal_follows_install Runner.broken_binary "latest" Runner.boot)
    as (evs & Hadded & _ & _ & _ & Hverified).
  unfold added in Hadded; rewrite Hadded, app_nil_r.
  apply Hverified.
  rewrite app_nil_r in Hadded; rewrite <- Hadded.
  vm_compute; reflexivity.
Defined.

(** C5, as stated, fails: when the privileged install fails, the download
    has been made and the removal is never run. *)
Lemma download_left_behind :
  ~ removed_whatever_happens Runner.broken_install "v1.30.0+k0s.0" Runner.boot.
Proof.
  intros Hclaim.
  specialize (Hclaim _ (eq_sym (app_nil_r _))).
  vm_compute in Hclaim.
  specialize (Hclaim eq_refl); discriminate.
Qed.

(** ** The diagnostics *)

Lemma emits_layers (host : Host) : emits layer_event (checkLayers host).
Proof. unfold checkLayers, info; footprint. Qed.

Lemma count_none (p q : Event -> bool) (evs : list Event) :
  (forall e, q e = true -> p e = false) ->
  forallb q evs = true -> count p evs = 0%nat.
Proof.
  intros Hpq Hq; unfold count.
  induction evs as [ | e evs IH]; simpl in *; [ reflexivity | ].
  apply andb_true_iff in Hq as [He Hq].
  rewrite (Hpq e He); auto.
Qed.

(** [showDiagnostics] never throws; it opens its group once and logs no
    error line.  Its probes are run in the order of [diagnostic_cmds] and
    each one is run whatever the exit codes of those before it; a probe
    that cannot be started is the last one run and leaves a warning. *)
Lemma showDiagnostics_spec (host : Host) (w : World) :
  fst (showDiagnostics host w) = Val tt
  /\ exists evs, added (log w) evs (snd (showDiagnostics host w))
       /\ count is_diagnostics evs = 1%nat
       /\ count is_timeout evs = 0%nat
       /\ (exists n, map fst (rev (diagnostic_probes evs)) = firstn n diagnostic_cmds)
       /\ match first_not_started (rev (diagnostic_probes evs)) with
          | None => all_probes_attempted evs /\ warnings evs = []
          | Some (c, message) =>
              hd_error (diagnostic_probes evs) = Some (c, NotStarted message)
              /\ warnings evs
                 = [("Failed to gather diagnostics: " ++ Js.show_error message)%string]
          end.
Proof.
  destruct w as [clk lg].
  set (P := fun rw : Res unit * World =>
    fst rw = Val tt
    /\ exists evs, added lg evs (snd rw)
       /\ count is_diagnostics evs = 1%nat
       /\ count is_timeout evs = 0%nat
       /\ (exists n, map fst (rev (diagnostic_probes evs)) = firstn n diagnostic_cmds)
       /\ match first_not_started (rev (diagnostic_probes evs)) with
          | None => all_probes_attempted evs /\ warnings evs = []
          | Some (c, message) =>
              hd_error (diagnostic_probes evs) = Some (c, NotStarted message)
              /\ warnings evs
                 = [("Failed to gather diagnostics: " ++ Js.show_error message)%string]
          end).
  change (P (showDiagnostics host {| clock := clk; log := lg |})).
  symex.
  all: subst P; cbv beta; unfold added, all_probes_attempted; cbn [fst snd log].
  all: split; [ reflexivity | ].
  all: eexists; split; [ split_log | ].
  all: cbn; repeat split; auto.
  all: first [ exists 1%nat; reflexivity | exists 2%nat; reflexivity
             | exists 3%nat; reflexivity | exists 4%nat; reflexivity
             | exists 5%nat; reflexivity ].
Qed.

(** ** The poller *)

Lemma checkLayers_ready (host : Host) (w w' : World) :
  checkLayers host w = (Val true, w') -> passed_together host (log w) (log w').
Proof.
  destruct w as [clk lg].
  set (P := fun rw : Res bool * World =>
              forall w', rw = (Val true, w') -> passed_together host lg (log w')).
  revert w'. change (P (checkLayers host {| clock := clk; log := lg |})).
  symex.
  all: subst P; cbv beta; intros w' Heq; inversion Heq; subst; clear Heq.
  cbn [log]. unfold passed_together.
  do 6 eexists; cbv zeta; repeat split; try eassumption; auto.
Qed.

(** One pass through the loop body, by the outcome of the deadline check
    and of the four-layer check. *)
Lemma pollCycle_spec (host : Host) (startTime : Z) (t : Js.number) (w : World) :
  let w1 := after host (Now (clock w)) w in
  let elapsed := (clock w - startTime) / 1000 in
  pollCycle host startTime t w =
    if Js.gt (Js.Num elapsed) t then
      (Exn timeout_message,
       snd (showDiagnostics host (after host (LogError timeout_message) w1)))
    else
      match checkLayers host w1 with
      | (Val true, w2) => (Val Break, w2)
      | (Val false, w2) =>
          (Val Continue,
           snd (sleep host 5000
                  (after host
                     (Info ("  Cluster not ready yet, waiting... ("
                              ++ Js.show_Z elapsed ++ "/" ++ Js.show_number t
                              ++ "s)")%string) w2)))
      | (Exn e, w2) => (Exn e, w2)
      | (Spin, w2) => (Spin, w2)
      end.
Proof.
  intros w1 elapsed; subst w1 elapsed.
  cbv beta iota zeta delta
    [pollCycle bind Date_now ret after logError info throw perform sleep fst snd].
  destruct (Js.gt _ _).
  - match goal with
    | |- context [showDiagnostics host ?x] =>
        pose proof (proj1 (showDiagnostics_spec host x)) as Hd;
        destruct (showDiagnostics host x) as [r wd]
    end.
    simpl in Hd; subst r; reflexivity.
  - match goal with
    | |- context [checkLayers host ?x] =>
        destruct (checkLayers host x) as [[[ | ] | e | ] w2]
    end; reflexivity.
Qed.

Lemma waitForClusterReady_spec (host : Host) (fuel : nat) (t : Js.number) (w : World) :
  let w0 :=
    after host
      (Info ("Waiting for k0s cluster to be ready (timeout: "
               ++ Js.show_number t ++ "s)...")%string)
      (after host (StartGroup "Waiting for cluster ready") w) in
  let loop := pollLoop host fuel (clock w0) t (after host (Now (clock w0)) w0) in
  waitForClusterReady host fuel t w =
    match fst loop with
    | Val _ =>
        (Val tt,
         after host EndGroup
           (after host (Info "✓ k0s cluster is fully ready!") (snd loop)))
    | Exn e =>
        (Exn ("Failed waiting for cluster: " ++ Js.show_error e)%string,
         after host EndGroup (snd loop))
    | Spin => (Spin, snd loop)
    end.
Proof.
  intros w0 loop; subst w0 loop.
  cbv beta iota zeta delta
    [waitForClusterReady bind try_finally try_catch Date_now ret after
     startGroup endGroup info throw perform fst snd].
  match goal with
  | |- context [pollLoop host fuel ?s t ?x] =>
      destruct (pollLoop host fuel s t x) as [[[] | e | ] wl]
  end; reflexivity.
Qed.

Lemma pollLoop_step (host : Host) (fuel : nat) (startTime : Z) (t : Js.number)
  (w : World) :
  pollLoop host (S fuel) startTime t w =
    match pollCycle host startTime t w with
    | (Val Break, w') => (Val tt, w')
    | (Val Continue, w') => pollLoop host fuel startTime t w'
    | (Exn e, w') => (Exn e, w')
    | (Spin, w') => (Spin, w')
    end.
Proof.
  simpl; unfold bind.
  destruct (pollCycle host startTime t w) as [[[ | ] | e | ] w']; reflexivity.
Qed.

Lemma pollLoop_ready (host : Host) (fuel : nat) (startTime : Z) (t : Js.number)
  (w w' : World) :
  pollLoop host fuel startTime t w = (Val tt, w') ->
  exists cycles now,
    passed_together host (Now now :: cycles ++ log w) (log w').
Proof.
  revert w; induction fuel as [ | fuel IH]; intros w Hloop; [ discriminate | ].
  rewrite pollLoop_step, pollCycle_spec in Hloop; cbv zeta in Hloop.
  destruct (Js.gt _ _); [ discriminate | ].
  destruct (emits_layers host (after host (Now (clock w)) w))
    as (cvs & Hclog & _).
  destruct (checkLayers host _) as [[[ | ] | e | ] w2] eqn:Hlayers;
    try discriminate; cbn [snd after perform log] in Hclog.
  - inversion Hloop; subst.
    exists [], (clock w). apply (checkLayers_ready _ _ _ Hlayers).
  - destruct (IH _ Hloop) as (cycles & now & Hpass).
    cbn [sleep after perform snd log] in Hpass. rewrite Hclog in Hpass.
    match type of Hpass with
    | passed_together _ (Now _ :: _ ++ Sleep 5000 :: Info ?m :: _) _ =>
        exists (cycles ++ Sleep 5000 :: Info m :: cvs ++ [Now (clock w)]), now;
        replace ((cycles ++ Sleep 5000 :: Info m :: cvs ++ [Now (clock w)])
                   ++ log w)
          with (cycles ++ Sleep 5000 :: Info m :: cvs ++ Now (clock w) :: log w)
          by assoc
    end.
    exact Hpass.
Qed.

(** C1. The poller returns normally, that is, reports Ready, only when the
    four probes were run in one and the same cycle of this very call,
    after the deadline check [Now now] of that cycle, in the order service,
    API, nodes, pods, and each passed on the answer the host gave at that
    moment: the last events before the closing lines are these four probes
    and nothing lies between them but their log lines; [cycles] are the
    earlier cycles of the call.  In a cycle where the node check fails
    there is therefore no report of Ready, whatever the pod check would
    answer, and no answer of an earlier cycle is used. *)
Theorem ready_only_if_all_layers_pass_together
  (host : Host) (fuel : nat) (timeoutSeconds : Js.number) (w w' : World) :
  waitForClusterReady host fuel timeoutSeconds w = (Val tt, w') ->
  exists cycles now l4,
    log w' = EndGroup :: Info "✓ k0s cluster is fully ready!" :: l4
    /\ passed_together host (Now now :: cycles ++ log w) l4.
Proof.
  rewrite waitForClusterReady_spec; cbv zeta.
  destruct (pollLoop host fuel _ _ _) as [[[] | e | ] wl] eqn:Hloop;
    cbn [fst snd]; intros Heq; inversion Heq; subst; clear Heq.
  destruct (pollLoop_ready _ _ _ _ _ _ Hloop) as (cycles & now & Hpass).
  cbn [after perform snd log] in Hpass.
  match type of Hpass with
  | passed_together _ (Now _ :: _ ++ Now ?t0 :: Info ?m :: _) _ =>
      exists (cycles ++ [Now t0; Info m; StartGroup "Waiting for cluster ready"]),
        now, (log wl);
      split; [ reflexivity | ];
      replace ((cycles ++ [Now t0; Info m; StartGroup "Waiting for cluster ready"])
                 ++ log w)
        with (cycles ++ Now t0 :: Info m
                :: StartGroup "Waiting for cluster ready" :: log w)
        by assoc
  end.
  exact Hpass.
Qed.

Lemma ready_only_if_all_layers_pass_together_witness :
  exists cycles now l4,
    log (snd (waitForClusterReady Runner.healthy 1 (Js.Num 60) Runner.boot))
    = EndGroup :: Info "✓ k0s cluster is fully ready!" :: l4
    /\ passed_together Runner.healthy (Now now :: cycles ++ log Runner.boot) l4.
Proof.
  apply (ready_only_if_all_layers_pass_together Runner.healthy 1 (Js.Num 60) Runner.boot).
  vm_compute; reflexivity.
Defined.

(** The flapping node of the spec: the nodes pass and a pod fails in the
    first cycle, then the pods pass while a node has regressed.  The
    poller never reports Ready; it times out. *)
Example flapping_node_is_not_ready :
  fst (waitForClusterReady Runner.flapping 3 (Js.Num 7) Runner.boot)
  = Exn "Failed waiting for cluster: Error: Timeout waiting for cluster to be ready".
Proof. vm_compute; reflexivity. Qed.

Lemma pollLoop_stalls (host : Host) (t : Js.number) :
  (forall elapsed, Js.gt (Js.Num elapsed) t = false) ->
  never_ready host ->
  forall fuel startTime w, fst (pollLoop host fuel startTime t w) = Spin.
Proof.
  intros Hgt Hnever fuel startTime.
  induction fuel as [ | fuel IH]; intros w; [ reflexivity | ].
  simpl. unfold bind at 1. rewrite pollCycle_spec, Hgt.
  pose proof (Hnever (after host (Now (clock w)) w)) as Hlayers.
  destruct (checkLayers host _) as [r w2]; simpl in Hlayers; subst r.
  apply IH.
Qed.

(** Without a deadline that fires, the poller never takes the timeout
    branch: no error line, no diagnostics. *)
Lemma emits_calm (host : Host) (t : Js.number) (fuel : nat) :
  (forall elapsed, Js.gt (Js.Num elapsed) t = false) ->
  emits calm_event (waitForClusterReady host fuel t).
Proof.
  intros Hgt.
  assert (Hloop : forall startTime, emits calm_event (pollLoop host fuel startTime t)).
  { intros startTime. induction fuel as [ | fuel IH]; simpl; [ footprint | ].
    apply emits_bind; [ | intros []; [ footprint | exact IH ] ].
    unfold pollCycle, info.
    apply emits_bind; [ footprint | intros now ].
    rewrite Hgt.
    apply emits_bind; [ | intros []; footprint ].
    unfold checkLayers, info; footprint. }
  unfold waitForClusterReady, info, startGroup, endGroup.
  apply emits_bind; [ footprint | intros _ ].
  apply emits_try_finally; [ | footprint ].
  apply emits_try_catch; [ | intros; footprint ].
  apply emits_bind; [ footprint | intros _ ].
  apply emits_bind; [ footprint | intros startTime ].
  apply emits_bind; [ apply Hloop | intros _ ]. footprint.
Qed.

(** C9. When the timeout input does not parse, [parseInt] gives NaN, the
    comparison [elapsed > timeoutSeconds] is false for every [elapsed], and
    the poller never takes its timeout branch: it logs no timeout line and
    runs no diagnostics.  If moreover the probes never let the four-layer
    check succeed, the loop is still running after any number of cycles. *)
Theorem nan_timeout_never_fires (host : Host) (s : string) :
  Js.parseInt s = Js.NaN ->
  (forall elapsed, Js.gt (Js.Num elapsed) (Js.parseInt s) = false)
  /\ (forall fuel w,
        exists evs,
          added (log w) evs (snd (waitForClusterReady host fuel (Js.parseInt s) w))
          /\ count is_timeout evs = 0%nat /\ count is_diagnostics evs = 0%nat)
  /\ (never_ready host ->
      forall fuel w, fst (waitForClusterReady host fuel (Js.parseInt s) w) = Spin).
Proof.
  intros ->.
  assert (Hgt : forall elapsed, Js.gt (Js.Num elapsed) Js.NaN = false)
    by reflexivity.
  split; [ exact Hgt | split ].
  - intros fuel w.
    destruct (emits_calm host Js.NaN fuel Hgt w) as (evs & Hlog & Hq & _).
    exists evs; split; [ exact Hlog | ].
    split; eapply count_none; try exact Hq; intros e He;
      unfold calm_event in He; apply andb_true_iff in He as [He Hd];
      apply andb_true_iff in He as [_ Ht];
      [ destruct (is_timeout e) | destruct (is_diagnostics e) ];
      (reflexivity || discriminate).
  - intros Hnever fuel w. rewrite waitForClusterReady_spec.
    rewrite pollLoop_stalls by assumption. reflexivity.
Qed.

(** A service that never reports healthy is one way of never being ready. *)
Lemma service_down_never_ready (host : Host) :
  (forall l, exists code out,
     respond host l status_cmd = Exited code out /\ code <> 0) ->
  never_ready host.
Proof.
  intros Hdown [clk lg]. destruct (Hdown lg) as (code & out & Hr & Hcode).
  apply Z.eqb_neq in Hcode.
  symex_unfold. rewrite Hr. symex_unfold. rewrite orb_true_r, Hcode.
  reflexivity.
Qed.

Lemma down_never_ready (timeout : string) : never_ready (Runner.down timeout).
Proof.
  apply service_down_never_ready. intros l.
  exists 1, EmptyString. split; [ reflexivity | discriminate ].
Qed.

Lemma nan_timeout_never_fires_witness :
  Js.parseInt "soon" = Js.NaN
  /\ fst (waitForClusterReady (Runner.down "soon") 1000 (Js.parseInt "soon") Runner.boot)
     = Spin.
Proof.
  split; [ reflexivity | ].
  apply (nan_timeout_never_fires (Runner.down "soon") "soon" eq_refl).
  apply down_never_ready.
Defined.

Lemma clock_readings_app (l1 l2 : list Event) :
  clock_readings (l1 ++ l2) = clock_readings l2 ++ clock_readings l1.
Proof. unfold clock_readings; rewrite flat_map_app; apply rev_app_distr. Qed.

Lemma clock_readings_none (evs : list Event) :
  forallb (fun e => negb (is_clock_read e)) evs = true -> clock_readings evs = [].
Proof.
  unfold clock_readings; intros Hq.
  induction evs as [ | e evs IH]; simpl in *; [ reflexivity | ].
  apply andb_true_iff in Hq as [He Hq].
  destruct e; try discriminate; simpl; auto.
Qed.

Lemma layers_read_no_clock (host : Host) (w : World) :
  exists evs, added (log w) evs (snd (checkLayers host w))
    /\ clock_readings evs = [] /\ count is_diagnostics evs = 0%nat
    /\ clock w <= clock (snd (checkLayers host w)).
Proof.
  destruct (emits_layers host w) as (evs & Hlog & Hq & Hclk).
  exists evs; repeat split; auto.
  - apply clock_readings_none. rewrite forallb_forall in *.
    intros e He; specialize (Hq e He); destruct e; try discriminate; reflexivity.
  - eapply count_none; try exact Hq. intros []; try discriminate; reflexivity.
Qed.

Lemma diagnostics_read_no_clock (host : Host) (w : World) :
  exists evs, added (log w) evs (snd (showDiagnostics host w))
    /\ clock_readings evs = [] /\ count is_diagnostics evs = 1%nat.
Proof.
  assert (Hq : emits (fun e => negb (is_clock_read e)) (showDiagnostics host)).
  { unfold showDiagnostics, info, warning, startGroup, endGroup; footprint. }
  destruct (Hq w) as (evs & Hlog & Hnone & _).
  destruct (showDiagnostics_spec host w) as (_ & evs' & Hlog' & Hone & _).
  unfold added in *. rewrite Hlog in Hlog'. apply app_inv_tail in Hlog'; subst evs'.
  exists evs; repeat split; auto using clock_readings_none.
Qed.

Lemma whole_seconds (a : Z) :
  (0 < a / 1000 -> 1000 <= a) /\ (a / 1000 <= 0 -> a < 1000).
Proof.
  pose proof (Z.div_mod a 1000 ltac:(lia)).
  pose proof (Z.mod_pos_bound a 1000 ltac:(lia)).
  split; lia.
Qed.

(** With a timeout of zero and probes that never pass, the loop entered at
    [w] with start time [t0] times out at its first deadline check when a
    full second has passed since [t0], and at its second one otherwise. *)
Lemma pollLoop_zero (host : Host) (t0 : Z) (w : World) :
  never_ready host ->
  t0 <= clock w ->
  exists w' evs,
    (forall fuel, (2 <= fuel)%nat ->
       pollLoop host fuel t0 (Js.Num 0) w = (Exn timeout_message, w'))
    /\ added (log w) evs w'
    /\ count is_diagnostics evs = 1%nat
    /\ ((clock_readings evs = [clock w] /\ t0 + 1000 <= clock w)
        \/ (exists t2, clock_readings evs = [clock w; t2]
                       /\ clock w < t0 + 1000 /\ t0 + 5000 <= t2)).
Proof.
  intros Hnever Ht1.
  remember (clock w) as t1 eqn:Et1.
  remember (after host (Now t1) w) as w1 eqn:Ew1.
  assert (Hw1 : log w1 = Now t1 :: log w /\ t1 <= clock w1)
    by (subst w1; cbn; split; [ reflexivity | lia ]).
  destruct Hw1 as [Hw1log Hw1clk].
  destruct (Z.ltb_spec 0 ((t1 - t0) / 1000)) as [Hlate | Hearly].
  - (* a full second has passed: the first check fires *)
    remember (after host (LogError timeout_message) w1) as wd eqn:Ewd.
    destruct (diagnostics_read_no_clock host wd) as (dvs & Hdlog & Hdclk & Hdone).
    exists (snd (showDiagnostics host wd)), (dvs ++ [LogError timeout_message; Now t1]).
    split; [ | split; [ | split ] ].
    + intros [ | fuel] Hfuel; [ lia | ].
      simpl pollLoop. unfold bind at 1. rewrite pollCycle_spec; cbv zeta.
      rewrite <- Et1, <- Ew1, <- Ewd. cbn [Js.gt].
      destruct (Z.ltb_spec 0 ((t1 - t0) / 1000)); [ reflexivity | lia ].
    + unfold added in *. rewrite Hdlog, Ewd. cbn [after perform snd log].
      rewrite Hw1log, <- app_assoc. reflexivity.
    + rewrite count_app, Hdone. reflexivity.
    + left. split; [ rewrite clock_readings_app, Hdclk; reflexivity | ].
      pose proof (proj1 (whole_seconds (t1 - t0)) Hlate). lia.
  - (* within the first second: one cycle, one sleep, then the check fires *)
    assert (Hfirst : t1 < t0 + 1000).
    { pose proof (proj2 (whole_seconds (t1 - t0)) Hearly). lia. }
    destruct (layers_read_no_clock host w1)
      as (cvs & Hclog & Hcclk & Hcdiag & Hcmono).
    pose proof (Hnever w1) as Hlayers.
    destruct (checkLayers host w1) as [r w2] eqn:Hc.
    cbn [fst snd] in *; subst r.
    remember ("  Cluster not ready yet, waiting... ("
                ++ Js.show_Z ((t1 - t0) / 1000) ++ "/" ++ Js.show_number (Js.Num 0)
                ++ "s)")%string as msg eqn:Emsg.
    remember (snd (sleep host 5000 (after host (Info msg) w2))) as w3 eqn:Ew3.
    assert (Hw3 : log w3 = Sleep 5000 :: Info msg :: log w2
                  /\ clock w2 + 5000 <= clock w3)
      by (subst w3; cbn; split; [ reflexivity | lia ]).
    destruct Hw3 as [Hw3log Hw3clk].
    remember (clock w3) as t2 eqn:Et2.
    remember (after host (LogError timeout_message) (after host (Now t2) w3))
      as wd eqn:Ewd.
    destruct (diagnostics_read_no_clock host wd) as (dvs & Hdlog & Hdclk & Hdone).
    exists (snd (showDiagnostics host wd)).
    exists (dvs ++ [LogError timeout_message; Now t2; Sleep 5000; Info msg]
              ++ cvs ++ [Now t1]).
    split; [ | split; [ | split ] ].
    + intros [ | [ | fuel]] Hfuel; [ lia | lia | ].
      simpl pollLoop. unfold bind at 1. rewrite pollCycle_spec; cbv zeta.
      rewrite <- Et1, <- Ew1, Hc. cbn [Js.gt].
      destruct (Z.ltb_spec 0 ((t1 - t0) / 1000)); [ lia | ].
      rewrite <- Emsg, <- Ew3.
      unfold bind at 1. rewrite pollCycle_spec; cbv zeta.
      rewrite <- Et2, <- Ewd. cbn [Js.gt].
      destruct (Z.ltb_spec 0 ((t2 - t0) / 1000)) as [ | Hno]; [ reflexivity | ].
      exfalso. pose proof (proj2 (whole_seconds (t2 - t0)) Hno). lia.
    + unfold added in *. rewrite Hdlog, Ewd. cbn [after perform snd log].
      rewrite Hw3log, Hclog, Hw1log, <- !app_assoc. reflexivity.
    + rewrite !count_app, Hdone, Hcdiag. reflexivity.
    + right. exists t2. split; [ | split; [ exact Hfirst | lia ] ].
      rewrite !clock_readings_app, Hdclk, Hcclk. reflexivity.
Qed.

(** C4 (amended). With a timeout of zero and probes that never let the
    four-layer check succeed, the poller ends with the timeout error as
    soon as it has two cycles to run.  The deadline check is strict
    ([elapsed > timeoutSeconds]), so a check made within the first second
    after the start does not fire: either the first check already comes a
    full second after the start, or the poller goes through one cycle and
    its five-second sleep and times out at the second check.  Diagnostics
    are run exactly once, and the error is raised after them. *)
Theorem timeout_zero_fires_after_a_second (host : Host) (w : World) :
  never_ready host ->
  exists w' evs,
    (forall fuel, (2 <= fuel)%nat ->
       waitForClusterReady host fuel (Js.Num 0) w
       = (Exn "Failed waiting for cluster: Error: Timeout waiting for cluster to be ready",
          w'))
    /\ added (log w) evs w'
    /\ count is_diagnostics evs = 1%nat
    /\ hd_error evs = Some EndGroup
    /\ exists t0 t1,
         (clock_readings evs = [t0; t1] /\ t0 + 1000 <= t1)
         \/ (exists t2, clock_readings evs = [t0; t1; t2]
                        /\ t0 <= t1 < t0 + 1000 /\ t0 + 5000 <= t2).
Proof.
  intros Hnever.
  remember (after host
              (Info "Waiting for k0s cluster to be ready (timeout: 0s)...")
              (after host (StartGroup "Waiting for cluster ready") w)) as w0 eqn:Ew0.
  assert (Hw0 : log w0
                = [Info "Waiting for k0s cluster to be ready (timeout: 0s)...";
                   StartGroup "Waiting for cluster ready"] ++ log w)
    by (subst w0; reflexivity).
  remember (clock w0) as t0 eqn:Et0.
  remember (after host (Now t0) w0) as w1 eqn:Ew1.
  assert (Hw1 : log w1 = Now t0 :: log w0 /\ t0 <= clock w1)
    by (subst w1; cbn; split; [ reflexivity | lia ]).
  destruct Hw1 as [Hw1log Hw1clk].
  destruct (pollLoop_zero host t0 w1 Hnever Hw1clk)
    as (wl & evs & Hrun & Hlog & Hdiag & Hreads).
  exists (after host EndGroup wl).
  exists (EndGroup :: evs ++ [Now t0;
                              Info "Waiting for k0s cluster to be ready (timeout: 0s)...";
                              StartGroup "Waiting for cluster ready"]).
  split; [ | split; [ | split; [ | split ] ] ].
  - intros fuel Hfuel. rewrite waitForClusterReady_spec; cbv zeta.
    cbn [Js.show_number Js.show_Z]. 
    change (Js.show_Z 0) with "0".
    cbn [String.append].
    rewrite <- Ew0, <- Et0, <- Ew1, (Hrun fuel Hfuel). reflexivity.
  - unfold added in *. cbn [after perform snd log].
    rewrite Hlog, Hw1log, Hw0. cbn [app]. rewrite <- app_assoc. reflexivity.
  - change (EndGroup :: evs ++ ?l) with ([EndGroup] ++ evs ++ l).
    rewrite !count_app, Hdiag. reflexivity.
  - reflexivity.
  - exists t0, (clock w1).
    change (EndGroup :: evs ++ ?l) with ([EndGroup] ++ evs ++ l).
    rewrite !clock_readings_app.
    destruct Hreads as [[-> Hlate] | (t2 & -> & Hearly & Hsleep)].
    + left; split; [ reflexivity | exact Hlate ].
    + right; exists t2; split; [ reflexivity | lia ].
Qed.

Lemma timeout_zero_fires_after_a_second_witness :
  exists w' evs,
    (forall fuel, (2 <= fuel)%nat ->
       waitForClusterReady (Runner.down "0") fuel (Js.Num 0) Runner.boot
       = (Exn "Failed waiting for cluster: Error: Timeout waiting for cluster to be ready",
          w'))
    /\ added (log Runner.boot) evs w'
    /\ count is_diagnostics evs = 1%nat
    /\ hd_error evs = Some EndGroup
    /\ exists t0 t1,
         (clock_readings evs = [t0; t1] /\ t0 + 1000 <= t1)
         \/ (exists t2, clock_readings evs = [t0; t1; t2]
                        /\ t0 <= t1 < t0 + 1000 /\ t0 + 5000 <= t2).
Proof.
  apply (timeout_zero_fires_after_a_second (Runner.down "0") Runner.boot).
  apply down_never_ready.
Defined.

(** C4, as stated, fails: on a runner whose service never comes up, the
    first deadline check reads an elapsed time of zero, which is not
    greater than the timeout of zero; the poller probes, sleeps and times
    out at its second deadline check. *)
Lemma first_check_does_not_time_out :
  ~ times_out_by_first_check (Runner.down "0") Runner.boot.
Proof.
  intros (fuel & message & w' & evs & Hrun & Hadded & Hchecks).
  unfold added in Hadded; cbn [Runner.boot log] in Hadded.
  rewrite app_nil_r in Hadded; subst evs.
  destruct fuel as [ | [ | fuel]];
    [ discriminate Hrun | discriminate Hrun | ].
  assert (Hw' : w' = snd (waitForClusterReady (Runner.down "0") (S (S fuel))
                            (Js.Num 0) Runner.boot))
    by (rewrite Hrun; reflexivity).
  subst w'. clear Hrun.
  vm_compute in Hchecks. lia.
Qed.

Lemma calm_counts (evs : list Event) :
  forallb calm_event evs = true ->
  count is_timeout evs = 0%nat /\ count is_diagnostics evs = 0%nat.
Proof.
  intros Hq; split; eapply count_none; try exact Hq; intros e He;
    unfold calm_event in He; apply andb_true_iff in He as [He Hd];
    apply andb_true_iff in He as [_ Ht];
    [ destruct (is_timeout e) | destruct (is_diagnostics e) ];
    (reflexivity || discriminate).
Qed.

(** The loop either never takes the timeout branch, or takes it once, as
    the last thing it does: the error line, then the diagnostics, then the
    timeout error. *)
Lemma pollLoop_deadline (host : Host) (fuel : nat) (startTime : Z) (t : Js.number)
  (w : World) :
  exists calm, forallb calm_event calm = true
    /\ (added (log w) calm (snd (pollLoop host fuel startTime t w))
        \/ exists dvs,
             fst (pollLoop host fuel startTime t w) = Exn timeout_message
             /\ added (log w) (dvs ++ LogError timeout_message :: calm)
                  (snd (pollLoop host fuel startTime t w))
             /\ count is_diagnostics dvs = 1%nat
             /\ count is_timeout dvs = 0%nat).
Proof.
  revert w; induction fuel as [ | fuel IH]; intros w.
  - exists []; split; [ reflexivity | left; reflexivity ].
  - rewrite pollLoop_step, pollCycle_spec; cbv zeta.
    destruct (Js.gt _ _).
    + destruct (showDiagnostics_spec host
                  (after host (LogError timeout_message)
                     (after host (Now (clock w)) w)))
        as (_ & dvs & Hdlog & Hdone & Hdnone & _).
      exists [Now (clock w)]; split; [ reflexivity | right ].
      exists dvs; repeat split; auto.
      unfold added in *; cbn [snd]. rewrite Hdlog; cbn [after perform snd log].
      rewrite <- app_assoc; reflexivity.
    + assert (Hcalm : emits calm_event (checkLayers host))
        by (unfold checkLayers, info; footprint).
      destruct (Hcalm (after host (Now (clock w)) w)) as (cvs & Hclog & Hcq & _).
      cbn [after perform snd log] in Hclog.
      destruct (checkLayers host _) as [[[ | ] | e | ] w2]; cbn [fst snd] in *.
      2: {
        match goal with
        | |- context [pollLoop host fuel startTime t ?x] =>
            destruct (IH x) as (calm & Hq & Hcases)
        end.
        eexists (calm ++ Sleep 5000 :: Info _ :: cvs ++ [Now (clock w)]).
        split.
        { rewrite forallb_app, Hq; cbn [forallb andb].
          rewrite forallb_app, Hcq; reflexivity. }
        unfold added in *.
        destruct Hcases as [Hlog | (dvs & Hres & Hlog & Hone & Hnone)];
          [ left | right; exists dvs; split; [ exact Hres | split; [ | auto ] ] ];
          rewrite Hlog; cbn [sleep after perform snd log]; rewrite Hclog;
          repeat (cbn [app]; rewrite <- ?app_assoc); reflexivity. }
      all: exists (cvs ++ [Now (clock w)]);
        (split; [ rewrite forallb_app, Hcq; reflexivity | left ]);
        unfold added; cbn [snd]; rewrite Hclog, <- app_assoc; reflexivity.
Qed.

(** C8 (amended).  [showDiagnostics] never throws, whatever its probes do,
    and on timeout the poller always ends with the timeout error raised
    after the diagnostics: whenever the timeout line is logged, the
    diagnostics run once and the result is
    "Failed waiting for cluster: Error: Timeout waiting for cluster to be
    ready".  The five probes share one [try] block and each ignores its
    exit code: they run in the fixed order, and a probe that exits with
    any code lets the next one run; a probe that cannot be started at all
    is the last one run, the ones after it are skipped, and this is what
    the single warning "Failed to gather diagnostics: ..." reports. *)
Theorem diagnostics_never_mask_timeout (host : Host) :
  (forall w,
     fst (showDiagnostics host w) = Val tt
     /\ exists evs, added (log w) evs (snd (showDiagnostics host w))
          /\ (exists n, map fst (rev (diagnostic_probes evs))
                        = firstn n diagnostic_cmds)
          /\ match first_not_started (rev (diagnostic_probes evs)) with
             | None => all_probes_attempted evs /\ warnings evs = []
             | Some (c, message) =>
                 hd_error (diagnostic_probes evs) = Some (c, NotStarted message)
                 /\ warnings evs
                    = [("Failed to gather diagnostics: "
                          ++ Js.show_error message)%string]
             end)
  /\ (forall fuel timeoutSeconds w,
        let result := waitForClusterReady host fuel timeoutSeconds w in
        exists evs, added (log w) evs (snd result)
          /\ ((count is_timeout evs = 0%nat /\ count is_diagnostics evs = 0%nat)
              \/ (fst result
                  = Exn "Failed waiting for cluster: Error: Timeout waiting for cluster to be ready"
                  /\ exists dvs calm,
                       evs = EndGroup :: dvs ++ LogError timeout_message :: calm
                       /\ count is_diagnostics dvs = 1%nat
                       /\ count is_timeout dvs = 0%nat
                       /\ count is_diagnostics calm = 0%nat
                       /\ count is_timeout calm = 0%nat))).
Proof.
  split.
  - intros w. destruct (showDiagnostics_spec host w)
      as (Hval & evs & Hlog & _ & _ & Horder & Hfail).
    split; [ exact Hval | exists evs; auto ].
  - intros fuel t w result; subst result.
    rewrite waitForClusterReady_spec; cbv zeta.
    match goal with
    | |- context [pollLoop host fuel ?s t ?x] =>
        destruct (pollLoop_deadline host fuel s t x) as (calm & Hq & Hcases);
        destruct (pollLoop host fuel s t x) as [r wl]
    end.
    cbn [fst snd after perform log] in *. unfold added in *.
    destruct (calm_counts _ Hq) as [Hc1 Hc2].
    destruct Hcases as [Hlog | (dvs & Hres & Hlog & Hone & Hnone)].
    + destruct r as [[] | e | ]; cbn [fst snd after perform log]; rewrite Hlog.
      * eexists (EndGroup :: Info "✓ k0s cluster is fully ready!"
                  :: calm ++ [Now _; Info _; StartGroup "Waiting for cluster ready"]).
        split; [ repeat (cbn [app]; rewrite <- ?app_assoc); reflexivity | left ].
        change (EndGroup :: Info ?m :: calm ++ ?l)
          with ([EndGroup; Info m] ++ calm ++ l).
        rewrite !count_app, Hc1, Hc2. split; reflexivity.
      * eexists (EndGroup :: calm ++ [Now _; Info _; StartGroup "Waiting for cluster ready"]).
        split; [ repeat (cbn [app]; rewrite <- ?app_assoc); reflexivity | left ].
        change (EndGroup :: calm ++ ?l) with ([EndGroup] ++ calm ++ l).
        rewrite !count_app, Hc1, Hc2. split; reflexivity.
      * eexists (calm ++ [Now _; Info _; StartGroup "Waiting for cluster ready"]).
        split; [ repeat (cbn [app]; rewrite <- ?app_assoc); reflexivity | left ].
        rewrite !count_app, Hc1, Hc2. split; reflexivity.
    + subst r; cbn [fst snd after perform log]; rewrite Hlog.
      eexists (EndGroup :: dvs ++ LogError timeout_message
                :: calm ++ [Now _; Info _; StartGroup "Waiting for cluster ready"]).
      split; [ repeat (cbn [app]; rewrite <- ?app_assoc); reflexivity | right ].
      split; [ reflexivity | ].
      eexists dvs, _; split; [ reflexivity | ].
      rewrite !count_app, Hc1, Hc2. repeat split; auto.
Qed.

(** C8, as stated, fails: with no [kubectl] on the PATH the poller times
    out, the third diagnostic probe cannot be started, and the node list
    and the pod list are never attempted. *)
Lemma diagnostics_stop_at_unstartable_probe :
  let result := waitForClusterReady Runner.no_kubectl 2 (Js.Num 0) Runner.boot in
  fst result
  = Exn "Failed waiting for cluster: Error: Timeout waiting for cluster to be ready"
  /\ map fst (rev (diagnostic_probes (log (snd result))))
     = [status_cmd; journal_cmd; cluster_info_cmd]
  /\ ~ all_probes_attempted (log (snd result)).
Proof.
  vm_compute. repeat split. discriminate.
Qed.

(** ** The whole run *)

(** [main], phase by phase. *)
Lemma main_spec (host : Host) (fuel : nat) (w : World) :
  main host fuel w =
    match installK0s host (version_input host) (started host w) with
    | (Val _, w1) =>
        match startK0s host w1 with
        | (Val _, w2) =>
            if waitForReady_input host then
              match waitForClusterReady host fuel (timeout_input host) w2 with
              | (Val _, w3) => (Val tt, after host (Info done_message) w3)
              | other => other
              end
            else (Val tt, after host (Info done_message) w2)
        | other => other
        end
    | other => other
    end.
Proof.
  cbv beta iota zeta delta
    [main bind try_catch throw ret info saveState perform started after
     config_message fst snd done_message].
  destruct (installK0s host _ _) as [[[] | e | ] w1]; try reflexivity.
  destruct (startK0s host w1) as [[[] | e | ] w2]; try reflexivity.
  destruct (waitForReady_input host); try reflexivity.
  destruct (waitForClusterReady host fuel _ w2) as [[[] | e | ] w3]; reflexivity.
Qed.

Lemma started_log (host : Host) (w : World) :
  log (started host w) = preamble host ++ log w.
Proof. reflexivity. Qed.

(** What [main] adds to the log: the preamble, then what the installer
    adds, then the launcher, then the poller and the closing line. *)
Lemma main_phases (host : Host) (fuel : nat) (w : World) :
  let i := installK0s host (version_input host) (started host w) in
  let s := startK0s host (snd i) in
  exists e1 e2 e3,
    added (log w) (e3 ++ e2 ++ e1 ++ preamble host) (snd (main host fuel w))
    /\ added (log (started host w)) e1 (snd i)
    /\ forallb install_event e1 = true
    /\ forallb start_event e2 = true
    /\ forallb wait_event e3 = true
    /\ (waitForReady_input host = false -> forallb start_event e3 = true)
    /\ (fst i = Val tt -> added (log (snd i)) e2 (snd s))
    /\ (fst (main host fuel w) = Val tt -> fst i = Val tt /\ fst s = Val tt)
    /\ (fst i <> Val tt -> e2 = []).
Proof.
  intros i s; subst i s. rewrite main_spec. unfold added.
  destruct (emits_installK0s host (version_input host) (started host w))
    as (e1 & H1 & Hq1 & _).
  destruct (installK0s host _ _) as [[[] | e | ] w1]; cbn [fst snd] in *.
  2, 3: exists e1, [], []; rewrite H1, started_log;
    repeat split; auto; try discriminate; assoc.
  destruct (emits_startK0s host w1) as (e2 & H2 & Hq2 & _).
  destruct (startK0s host w1) as [[[] | e | ] w2]; cbn [fst snd] in *.
  2, 3: exists e1, e2, []; rewrite H2, H1, started_log;
    repeat split; auto; try discriminate; try assoc; try congruence.
  destruct (waitForReady_input host).
  - destruct (emits_waitForClusterReady host fuel (timeout_input host) w2)
      as (e3 & H3 & Hq3 & _).
    destruct (waitForClusterReady host fuel _ w2) as [[[] | e | ] w3];
      cbn [fst snd after perform log] in *.
    1: exists e1, e2, (Info done_message :: e3).
    2, 3: exists e1, e2, e3.
    all: rewrite H3, H2, H1, started_log;
      repeat split; auto; try discriminate; try assoc; try congruence.
  - exists e1, e2, [Info done_message]; cbn [fst snd after perform log].
    rewrite H2, H1, started_log; repeat split; auto; try assoc; congruence.
Qed.

Lemma forallb_weaken (q q' : Event -> bool) (evs : list Event) :
  (forall e, q e = true -> q' e = true) ->
  forallb q evs = true -> forallb q' evs = true.
Proof. rewrite !forallb_forall; auto. Qed.

Lemma saved_state_skip (evs older : list Event) (key : string) :
  count is_marker evs = 0%nat ->
  saved_state (evs ++ older) key = saved_state older key.
Proof.
  unfold count. induction evs as [ | e evs IH]; simpl; [ reflexivity | ].
  destruct e; simpl; auto; discriminate.
Qed.

(** C7. Whatever happens later, [main] saves the run marker as its second
    effect, right after its opening log line: everything else the run
    does (every step of the installer, of the launcher and of the poller)
    comes after it and leaves it alone.  So the value the post-run
    invocation reads back for "isPost" is "true", however the main phase
    ended (normally, with a failure of the installation, or still running),
    and with it [run] takes the cleanup branch. *)
Theorem marker_set_before_installation (host : Host) (fuel : nat) (w : World) :
  let result := main host fuel w in
  exists later,
    log (snd result)
    = later ++ Info (config_message host) :: SaveState "isPost" "true"
        :: Info "Starting k0s setup..." :: log w
    /\ count is_marker later = 0%nat
    /\ (forall e, In e later -> is_marker e = false)
    /\ saved_state (log (snd result)) "isPost" = "true"
    /\ forall post fuel' w',
         getState post "isPost" = saved_state (log (snd result)) "isPost" ->
         run post fuel' w' = try_catch (cleanup post) (setFailed post) w'.
Proof.
  intros result; subst result.
  destruct (main_phases host fuel w)
    as (e1 & e2 & e3 & Hlog & _ & Hq1 & Hq2 & Hq3 & _).
  unfold added, preamble in Hlog.
  assert (Hnone : forallb (fun e => negb (is_marker e)) (e3 ++ e2 ++ e1) = true).
  { rewrite !forallb_app. repeat (apply andb_true_iff; split).
    - eapply forallb_weaken; [ | exact Hq3 ].
      intros e He; destruct e; try discriminate; reflexivity.
    - eapply forallb_weaken; [ | exact Hq2 ].
      intros e He; destruct e; try discriminate; reflexivity.
    - eapply forallb_weaken; [ | exact Hq1 ].
      intros e He; destruct e; try discriminate; reflexivity. }
  assert (Hcount : count is_marker (e3 ++ e2 ++ e1) = 0%nat).
  { eapply count_none; [ | exact Hnone ].
    intros e He; cbv beta in He.
    destruct (is_marker e); [ discriminate He | reflexivity ]. }
  assert (Hshape : log (snd (main host fuel w))
                   = (e3 ++ e2 ++ e1) ++ Info (config_message host)
                       :: SaveState "isPost" "true"
                       :: Info "Starting k0s setup..." :: log w)
    by (rewrite Hlog; assoc).
  assert (Hsaved : saved_state (log (snd (main host fuel w))) "isPost" = "true")
    by (rewrite Hshape, saved_state_skip by exact Hcount; reflexivity).
  exists (e3 ++ e2 ++ e1). repeat split; auto.
  - intros e He. rewrite forallb_forall in Hnone. specialize (Hnone e He).
    destruct (is_marker e); [ discriminate | reflexivity ].
  - intros post fuel' w' Hstate. rewrite Hsaved in Hstate.
    unfold run. rewrite Hstate. reflexivity.
Qed.

Lemma marker_set_before_installation_witness :
  let main_log := log (snd (main Runner.riscv 0 Runner.boot)) in
  run (Runner.post main_log) 0 Runner.boot
  = try_catch (cleanup (Runner.post main_log)) (setFailed (Runner.post main_log))
      Runner.boot.
Proof.
  intros main_log.
  destruct (marker_set_before_installation Runner.riscv 0 Runner.boot)
    as (later & _ & _ & _ & _ & Hpost).
  apply Hpost. reflexivity.
Defined.

Lemma existsb_none (p : Event -> bool) (evs : list Event) :
  forallb (fun e => negb (p e)) evs = true -> existsb p evs = false.
Proof.
  induction evs as [ | e evs IH]; simpl; [ reflexivity | ].
  intros [He Hq]%andb_true_iff. destruct (p e); [ discriminate | auto ].
Qed.

Lemma wait_opens_group (host : Host) (fuel : nat) (t : Js.number) (w : World) :
  exists later,
    log (snd (waitForClusterReady host fuel t w))
    = later ++ StartGroup "Waiting for cluster ready" :: log w.
Proof.
  rewrite waitForClusterReady_spec; cbv zeta.
  match goal with
  | |- context [pollLoop host fuel ?s t ?x] =>
      destruct (emits_pollLoop host fuel s t x) as (evs & Hlog & _);
      destruct (pollLoop host fuel s t x) as [[[] | e | ] wl]
  end; cbn [fst snd after perform log] in *; rewrite Hlog.
  - eexists (EndGroup :: Info _ :: evs ++ [Now _; Info _]); assoc.
  - eexists (EndGroup :: evs ++ [Now _; Info _]); assoc.
  - eexists (evs ++ [Now _; Info _]); assoc.
Qed.

(** C10. The poller runs only when the wait-for-ready input is exactly
    "true": a run in which anything of the poller shows up in the log (its
    group, a clock read, a probe that ignores its exit code, a five-second
    sleep, its diagnostics) has that input.  Once the installer and the
    launcher have succeeded, the input decides alone: with "true" the
    poller is entered, in the world the launcher leaves, and its outcome is
    the outcome of the run; with any other value the run logs its closing
    line and returns at once, with no readiness check at all. *)
Theorem readiness_gate (host : Host) (fuel : nat) (w : World) :
  let result := main host fuel w in
  exists evs, added (log w) evs (snd result)
    /\ (existsb is_readiness evs = true -> getInput host "wait-for-ready" = "true")
    /\ forall w1 w2,
         installK0s host (version_input host) (started host w) = (Val tt, w1) ->
         startK0s host w1 = (Val tt, w2) ->
         (getInput host "wait-for-ready" = "true" ->
            In (StartGroup "Waiting for cluster ready") evs
            /\ result
               = match waitForClusterReady host fuel (timeout_input host) w2 with
                 | (Val _, w3) => (Val tt, after host (Info done_message) w3)
                 | other => other
                 end)
         /\ (getInput host "wait-for-ready" <> "true" ->
               result = (Val tt, after host (Info done_message) w2)
               /\ existsb is_readiness evs = false).
Proof.
  intros result; subst result.
  destruct (main_phases host fuel w)
    as (e1 & e2 & e3 & Hlog & Hi & Hq1 & Hq2 & Hq3 & Hskip & Hs & _).
  cbv zeta in *.
  assert (Hquiet : waitForReady_input host = false ->
                   existsb is_readiness (e3 ++ e2 ++ e1 ++ preamble host) = false).
  { intros Hoff. apply existsb_none. rewrite !forallb_app.
    repeat (apply andb_true_iff; split); try reflexivity.
    - eapply forallb_weaken; [ | exact (Hskip Hoff) ].
      intros e He; unfold start_event in He.
      destruct (is_readiness e); [ discriminate | reflexivity ].
    - eapply forallb_weaken; [ | exact Hq2 ].
      intros e He; unfold start_event in He.
      destruct (is_readiness e); [ discriminate | reflexivity ].
    - eapply forallb_weaken; [ | exact Hq1 ].
      intros e He; unfold install_event in He.
      destruct (is_readiness e); [ discriminate | reflexivity ]. }
  exists (e3 ++ e2 ++ e1 ++ preamble host).
  split; [ exact Hlog | split ].
  - intros Hsome.
    destruct (String.eqb_spec (getInput host "wait-for-ready") "true") as [ | Hne];
      [ assumption | ].
    rewrite Hquiet in Hsome; [ discriminate | ].
    unfold waitForReady_input. now apply String.eqb_neq.
  - intros w1 w2 Hinstall Hstart.
    rewrite Hinstall in *; cbn [fst snd] in *.
    specialize (Hs eq_refl). rewrite Hstart in Hs; cbn [snd] in Hs.
    rewrite main_spec, Hinstall, Hstart in *. unfold waitForReady_input in *.
    split.
    + intros Hon. rewrite Hon in *. cbn [String.eqb Ascii.eqb Bool.eqb] in *.
      split; [ | reflexivity ].
      destruct (wait_opens_group host fuel (timeout_input host) w2)
        as (later & Hopen).
      unfold added in *.
      assert (Hall : exists later',
                 e3 ++ e2 ++ e1 ++ preamble host
                 = later' ++ StartGroup "Waiting for cluster ready"
                     :: e2 ++ e1 ++ preamble host).
      { destruct (waitForClusterReady host fuel _ w2) as [[[] | e | ] w3];
          cbn [snd after perform log] in *;
          rewrite Hopen, Hs, Hi, started_log in Hlog.
        - exists (Info done_message :: later).
          apply (app_inv_tail (log w)). rewrite <- Hlog. assoc.
        - exists later. apply (app_inv_tail (log w)). rewrite <- Hlog. assoc.
        - exists later. apply (app_inv_tail (log w)). rewrite <- Hlog. assoc. }
      destruct Hall as (later' & ->). apply in_or_app; right; left; reflexivity.
    + intros Hoff. apply String.eqb_neq in Hoff. rewrite Hoff in *.
      split; [ reflexivity | apply Hquiet; reflexivity ].
Qed.

Lemma readiness_gate_witness :
  main Runner.unwaited 0 Runner.boot
  = (Val tt,
     after Runner.unwaited (Info done_message)
       (snd (startK0s Runner.unwaited
               (snd (installK0s Runner.unwaited (version_input Runner.unwaited)
                       (started Runner.unwaited Runner.boot)))))).
Proof.
  destruct (readiness_gate Runner.unwaited 0 Runner.boot) as (evs & _ & _ & Hgate).
  refine (proj1 (proj2 (Hgate _ _ _ _) _)).
  - vm_compute; reflexivity.
  - vm_compute; reflexivity.
  - vm_compute; discriminate.
Defined.

(** ** Version resolution *)

Lemma installK0s_versions (host : Host) (version : string) (w : World) :
  let result := installK0s host version w in
  exists evs, added (log w) evs (snd result)
    /\ (List.length (resolutions evs) <= 1)%nat
    /\ (version <> "latest" ->
          resolutions evs = []
          /\ (downloads evs = []
              \/ exists token,
                   downloads evs = [download_cmd (downloadUrl version token)]))
    /\ (version = "latest" ->
          downloads evs = []
          \/ exists out token,
               resolutions evs = [Exited 0 out]
               /\ downloads evs
                  = [download_cmd (downloadUrl (Js.trim out) token)])
    /\ (version = "latest" ->
        forall out token,
          respond host
            (Info ("Installing k0s " ++ version ++ "...")%string
               :: StartGroup "Installing k0s" :: log w) uname_cmd = Exited 0 out ->
          mapArch (Js.trim out) = Some token ->
          List.length (resolutions evs) = 1%nat).
Proof.
  intros result; subst result. destruct w as [clk lg].
  set (P := fun rw : Res unit * World =>
    exists evs, added lg evs (snd rw)
    /\ (List.length (resolutions evs) <= 1)%nat
    /\ (version <> "latest" ->
          resolutions evs = []
          /\ (downloads evs = []
              \/ exists token,
                   downloads evs = [download_cmd (downloadUrl version token)]))
    /\ (version = "latest" ->
          downloads evs = []
          \/ exists out token,
               resolutions evs = [Exited 0 out]
               /\ downloads evs
                  = [download_cmd (downloadUrl (Js.trim out) token)])
    /\ (version = "latest" ->
        forall out token,
          respond host
            (Info ("Installing k0s " ++ version ++ "...")%string
               :: StartGroup "Installing k0s" :: lg) uname_cmd = Exited 0 out ->
          mapArch (Js.trim out) = Some token ->
          List.length (resolutions evs) = 1%nat)).
  change (P (installK0s host version {| clock := clk; log := lg |})).
  symex.
  all: subst P; cbv beta; unfold added; cbn [snd log].
  all: eexists; split; [ split_log | ].
  all: cbn; repeat split; try lia; try contradiction; intros; try congruence.
  all: try (left; reflexivity); try (right; eauto; fail).
  all: try (split; [ reflexivity | ]).
  all: try (left; reflexivity); try (right; eauto; fail).
Qed.

Lemma no_versions (q : Event -> bool) (evs : list Event) :
  (forall e, q e = true -> is_resolution e = false /\ is_download e = false) ->
  forallb q evs = true -> resolutions evs = [] /\ downloads evs = [].
Proof.
  intros Hq Hall. induction evs as [ | e evs IH]; [ split; reflexivity | ].
  simpl in Hall. apply andb_true_iff in Hall as [He Hall].
  destruct (IH Hall) as [IH1 IH2]. destruct (Hq e He) as [Hr Hd].
  unfold resolutions, downloads in *; simpl; rewrite IH1, IH2.
  destruct e; simpl in *; try (split; reflexivity).
  rewrite Hr, Hd; split; reflexivity.
Qed.

(** C3. In every run of [main] the version is resolved at most once: never
    when the version specifier (the version input, or "latest" when it is
    empty) is an explicit tag, and exactly once when it is "latest" and the
    installer got as far as resolving it, that is, the architecture probe
    returned a supported architecture.  The run downloads at most once,
    and the URL it downloads from is built from the explicit specifier or,
    for "latest", from the trimmed output captured by that one resolution,
    which is not run again afterwards. *)
Theorem version_resolved_at_most_once (host : Host) (fuel : nat) (w : World) :
  let version := version_input host in
  exists evs, added (log w) evs (snd (main host fuel w))
    /\ (List.length (resolutions evs) <= 1)%nat
    /\ (version <> "latest" ->
          resolutions evs = []
          /\ (downloads evs = []
              \/ exists token,
                   downloads evs = [download_cmd (downloadUrl version token)]))
    /\ (version = "latest" ->
          downloads evs = []
          \/ exists out token,
               resolutions evs = [Exited 0 out]
               /\ downloads evs
                  = [download_cmd (downloadUrl (Js.trim out) token)])
    /\ (version = "latest" ->
        forall out token,
          respond host
            (Info ("Installing k0s " ++ version ++ "...")%string
               :: StartGroup "Installing k0s" :: log (started host w))
            uname_cmd = Exited 0 out ->
          mapArch (Js.trim out) = Some token ->
          List.length (resolutions evs) = 1%nat).
Proof.
  intros version; subst version.
  destruct (main_phases host fuel w)
    as (e1 & e2 & e3 & Hlog & Hi & _ & Hq2 & Hq3 & _).
  destruct (installK0s_versions host (version_input host) (started host w))
    as (evs & Hadded & Hfacts).
  cbv zeta in *. unfold added in Hi, Hadded.
  rewrite Hi in Hadded. apply app_inv_tail in Hadded; subst evs.
  destruct (no_versions start_event e2) as [Hr2 Hd2]; [ | exact Hq2 | ].
  { intros e He; unfold start_event in He.
    destruct (is_resolution e), (is_download e), (is_readiness e), (is_marker e);
      try discriminate; split; reflexivity. }
  destruct (no_versions wait_event e3) as [Hr3 Hd3]; [ | exact Hq3 | ].
  { intros e He; unfold wait_event in He.
    destruct (is_resolution e), (is_download e), (is_marker e);
      try discriminate; split; reflexivity. }
  exists (e3 ++ e2 ++ e1 ++ preamble host). split; [ exact Hlog | ].
  rewrite !resolutions_app, !downloads_app, Hr2, Hr3, Hd2, Hd3.
  change (resolutions (preamble host)) with (@nil Outcome).
  change (downloads (preamble host)) with (@nil Cmd).
  cbn [app]. rewrite !app_nil_r. exact Hfacts.
Qed.

Lemma version_resolved_at_most_once_witness :
  exists evs, added (log Runner.boot) evs (snd (main Runner.healthy 1 Runner.boot))
    /\ List.length (resolutions evs) = 1%nat.
Proof.
  destruct (version_resolved_at_most_once Runner.healthy 1 Runner.boot)
    as (evs & Hadded & _ & _ & _ & Honce).
  exists evs. split; [ exact Hadded | ].
  exact (Honce eq_refl ("x86_64" ++ Runner.nl)%string "amd64" eq_refl eq_refl).
Defined.

(** ** The credential file *)

Lemma followed_any_next (p q : Event -> bool) (next : option Event)
  (evs : list Event) :
  followed p q None evs = true -> followed p q next evs = true.
Proof.
  destruct evs as [ | e older]; simpl; [ reflexivity | ].
  destruct (p e); [ discriminate | auto ].
Qed.

Lemma followed_quiet (p q : Event -> bool) (next : option Event)
  (evs : list Event) :
  forallb (fun e => negb (p e)) evs = true -> followed p q next evs = true.
Proof.
  revert next; induction evs as [ | e evs IH]; intros next; simpl;
    [ reflexivity | ].
  intros [He Hall]%andb_true_iff. apply negb_true_iff in He.
  rewrite He; simpl; auto.
Qed.

Lemma followed_app (p q : Event -> bool) (next : option Event)
  (l1 l2 : list Event) :
  followed p q next l1 = true -> followed p q None l2 = true ->
  followed p q next (l1 ++ l2) = true.
Proof.
  revert next; induction l1 as [ | e l1 IH]; intros next H1 H2; simpl in *.
  - now apply followed_any_next.
  - apply andb_true_iff in H1 as [He H1]. rewrite He; simpl. auto.
Qed.

(** The command the launcher runs on the file is the one [is_restriction]
    and [is_restricted] look for. *)
Lemma is_restriction_chmod (path : string) (o : ExecOptions) (r : Outcome) :
  is_restriction path (Exec (chmod_cmd path) o r) = true.
Proof. cbn. apply String.eqb_refl. Qed.

Lemma is_restricted_chmod (path : string) (o : ExecOptions) (out : string) :
  is_restricted path (Exec (chmod_cmd path) o (Exited 0 out)) = true.
Proof. cbn. apply String.eqb_refl. Qed.



Section CredentialFree.

Context (host : Host).




End CredentialFree.






(** ** The end-to-end scenario of the spec *)

Example end_to_end :
  let result := run Runner.pinned 1 Runner.boot in
  fst result = Val tt
  /\ downloads (log (snd result))
     = [download_cmd
          "https://github.com/k0sproject/k0s/releases/download/v1.30.0+k0s.0/k0s-v1.30.0+k0s.0-amd64"]
  /\ resolutions (log (snd result)) = []
  /\ published (log (snd result))
     = [ExportVariable "KUBECONFIG" "/home/runner/.kube/config";
        SetOutput "kubeconfig" "/home/runner/.kube/config"]
  /\ hd_error (log (snd result)) = Some (Info done_message).
Proof. vm_compute; repeat split. Qed.

(** * Further properties of the script *)

(** ** Failures and their messages *)

Lemma Exn_inj {A} (a b : string) : @Exn A a = Exn b -> a = b.
Proof. congruence. Qed.

(** Why the installer fails: one of its processes has rejected, or the
    architecture is not one of the four. *)
Lemma installK0s_failure (host : Host) (version : string) (w : World) (m : string) :
  fst (installK0s host version w) = Exn m ->
  exists cause last rest,
    log (snd (installK0s host version w)) = EndGroup :: last :: rest
    /\ m = ("Failed to install k0s: " ++ Js.show_error cause)%string
    /\ (rejection host last = Some cause
        \/ exists out, last = Exec uname_cmd capture_opts (Exited 0 out)
             /\ mapArch (Js.trim out) = None
             /\ cause = ("Unsupported architecture: " ++ Js.trim out)%string).
Proof.
  destruct w as [clk lg].
  set (P := fun rw : Res unit * World =>
    fst rw = Exn m ->
    exists cause last rest,
      log (snd rw) = EndGroup :: last :: rest
      /\ m = ("Failed to install k0s: " ++ Js.show_error cause)%string
      /\ (rejection host last = Some cause
          \/ exists out, last = Exec uname_cmd capture_opts (Exited 0 out)
               /\ mapArch (Js.trim out) = None
               /\ cause = ("Unsupported architecture: " ++ Js.trim out)%string)).
  change (P (installK0s host version {| clock := clk; log := lg |})).
  symex.
  all: subst P; cbv beta; cbn [fst snd log]; intros Hm;
    first [ discriminate Hm | apply Exn_inj in Hm; subst m ].
  all: zero_or_not.
  all: do 3 eexists; split; [ reflexivity | split; [ reflexivity | ] ].
  all: first [ left; reflexivity | right; eexists; repeat split; assumption ].
Qed.

Lemma startK0s_failure (host : Host) (w : World) (m : string) :
  fst (startK0s host w) = Exn m ->
  exists cause last rest,
    log (snd (startK0s host w)) = EndGroup :: last :: rest
    /\ m = ("Failed to start k0s: " ++ Js.show_error cause)%string
    /\ rejection host last = Some cause.
Proof.
  destruct w as [clk lg].
  set (P := fun rw : Res unit * World =>
    fst rw = Exn m ->
    exists cause last rest,
      log (snd rw) = EndGroup :: last :: rest
      /\ m = ("Failed to start k0s: " ++ Js.show_error cause)%string
      /\ rejection host last = Some cause).
  change (P (startK0s host {| clock := clk; log := lg |})).
  symex.
  all: subst P; cbv beta; cbn [fst snd log]; intros Hm;
    first [ discriminate Hm | apply Exn_inj in Hm; subst m ].
  all: zero_or_not.
  all: do 3 eexists; split; [ reflexivity | split; [ reflexivity | ] ].
  all: cbn [rejection]; first [ reflexivity | assumption ].
Qed.

Lemma checkLayers_failure (host : Host) (w : World) (m : string) :
  fst (checkLayers host w) = Exn m ->
  exists last rest,
    log (snd (checkLayers host w)) = last :: rest
    /\ rejection host last = Some m.
Proof.
  destruct w as [clk lg].
  set (P := fun rw : Res bool * World =>
    fst rw = Exn m ->
    exists last rest, log (snd rw) = last :: rest /\ rejection host last = Some m).
  change (P (checkLayers host {| clock := clk; log := lg |})).
  symex.
  all: subst P; cbv beta; cbn [fst snd log]; intros Hm;
    first [ discriminate Hm | apply Exn_inj in Hm; subst m ].
  all: do 2 eexists; split; reflexivity.
Qed.

Lemma showDiagnostics_closes (host : Host) (w : World) :
  exists rest, log (snd (showDiagnostics host w)) = EndGroup :: rest.
Proof.
  destruct w as [clk lg].
  set (P := fun rw : Res unit * World => exists rest, log (snd rw) = EndGroup :: rest).
  change (P (showDiagnostics host {| clock := clk; log := lg |})).
  symex.
  all: subst P; cbv beta; cbn [snd log]; eexists; reflexivity.
Qed.

(** Why the loop fails: a probe could not be started, or the deadline has
    passed, and then the diagnostics have been shown. *)
Lemma pollLoop_failure (host : Host) (startTime : Z) (t : Js.number) (fuel : nat)
  (w : World) (cause : string) :
  fst (pollLoop host fuel startTime t w) = Exn cause ->
  exists last rest,
    log (snd (pollLoop host fuel startTime t w)) = last :: rest
    /\ (rejection host last = Some cause
        \/ (last = EndGroup /\ cause = timeout_message)).
Proof.
  revert w; induction fuel as [ | fuel IH]; intros w; [ discriminate | ].
  rewrite pollLoop_step, pollCycle_spec; cbv zeta.
  destruct (Js.gt _ _).
  - cbn [fst snd]. intros Hm; apply Exn_inj in Hm; subst cause.
    match goal with
    | |- context [showDiagnostics host ?x] =>
        destruct (showDiagnostics_closes host x) as (rest & ->)
    end.
    exists EndGroup, rest. split; [ reflexivity | right; split; reflexivity ].
  - pose proof (checkLayers_failure host (after host (Now (clock w)) w)) as Hc.
    destruct (checkLayers host _) as [[[ | ] | e | ] w2]; cbn [fst snd] in *;
      try discriminate.
    + apply IH.
    + intros Hm; apply Exn_inj in Hm; subst cause.
      destruct (Hc e eq_refl) as (last & rest & -> & Hr).
      exists last, rest. split; [ reflexivity | left; exact Hr ].
Qed.

Lemma waitForClusterReady_failure (host : Host) (fuel : nat) (t : Js.number)
  (w : World) (m : string) :
  fst (waitForClusterReady host fuel t w) = Exn m ->
  exists cause last rest,
    log (snd (waitForClusterReady host fuel t w)) = EndGroup :: last :: rest
    /\ m = ("Failed waiting for cluster: " ++ Js.show_error cause)%string
    /\ (rejection host last = Some cause
        \/ (last = EndGroup /\ cause = timeout_message)).
Proof.
  rewrite waitForClusterReady_spec; cbv zeta.
  match goal with
  | |- context [pollLoop host fuel ?s t ?x] =>
      pose proof (pollLoop_failure host s t fuel x) as Hloop;
      destruct (pollLoop host fuel s t x) as [[[] | e | ] wl]
  end; cbn [fst snd] in *; try discriminate.
  intros Hm; apply Exn_inj in Hm; subst m.
  destruct (Hloop e eq_refl) as (last & rest & Hlog & Hcause).
  exists e, last, rest. cbn [after perform snd log]. rewrite Hlog. auto.
Qed.

(** X3. Whenever [main] fails, its error names the phase that failed and
    says why.  The error is the one of the first phase that has not
    returned: the installer, or after it the launcher, or after both the
    poller; it starts with the words of that phase ("Failed to install
    k0s: ", "Failed to start k0s: ", "Failed waiting for cluster: ") and
    goes on with the cause, rendered by the template literal.  The cause
    is the error of the last thing the phase did before it closed its log
    group: the rejection of a process or of the write of the kubeconfig;
    or it is one of the two errors the script throws itself: the
    unsupported architecture, right after the architecture probe, and the
    timeout, right after the diagnostics. *)
Theorem failure_names_its_phase (host : Host) (fuel : nat) (w : World) (m : string) :
  fst (main host fuel w) = Exn m ->
  let i := installK0s host (version_input host) (started host w) in
  let s := startK0s host (snd i) in
  let p := waitForClusterReady host fuel (timeout_input host) (snd s) in
  exists cause last rest,
    log (snd (main host fuel w)) = EndGroup :: last :: rest
    /\ ((fst i = Exn m
         /\ m = ("Failed to install k0s: " ++ Js.show_error cause)%string
         /\ (rejection host last = Some cause
             \/ exists out, last = Exec uname_cmd capture_opts (Exited 0 out)
                  /\ mapArch (Js.trim out) = None
                  /\ cause = ("Unsupported architecture: " ++ Js.trim out)%string))
        \/ (fst i = Val tt /\ fst s = Exn m
            /\ m = ("Failed to start k0s: " ++ Js.show_error cause)%string
            /\ rejection host last = Some cause)
        \/ (fst i = Val tt /\ fst s = Val tt /\ waitForReady_input host = true
            /\ fst p = Exn m
            /\ m = ("Failed waiting for cluster: " ++ Js.show_error cause)%string
            /\ (rejection host last = Some cause
                \/ (last = EndGroup /\ cause = timeout_message)))).
Proof.
  cbv zeta. rewrite main_spec.
  pose proof (installK0s_failure host (version_input host) (started host w)) as Hi.
  destruct (installK0s host _ _) as [[[] | e | ] w1]; cbn [fst snd] in *;
    try discriminate.
  2: { intros Hm; apply Exn_inj in Hm; subst m.
       destruct (Hi e eq_refl) as (cause & last & rest & Hlog & Hmsg & Hcause).
       exists cause, last, rest. split; [ exact Hlog | left; auto ]. }
  clear Hi. pose proof (startK0s_failure host w1) as Hs.
  destruct (startK0s host w1) as [[[] | e | ] w2]; cbn [fst snd] in *;
    try discriminate.
  2: { intros Hm; apply Exn_inj in Hm; subst m.
       destruct (Hs e eq_refl) as (cause & last & rest & Hlog & Hmsg & Hcause).
       exists cause, last, rest. split; [ exact Hlog | right; left; auto ]. }
  clear Hs. destruct (waitForReady_input host); [ | discriminate ].
  pose proof (waitForClusterReady_failure host fuel (timeout_input host) w2) as Hp.
  destruct (waitForClusterReady host fuel _ w2) as [[[] | e | ] w3];
    cbn [fst snd] in *; try discriminate.
  intros Hm; apply Exn_inj in Hm; subst m.
  destruct (Hp e eq_refl) as (cause & last & rest & Hlog & Hmsg & Hcause).
  exists cause, last, rest. split; [ exact Hlog | right; right; auto 10 ].
Qed.

Lemma failure_names_its_phase_witness :
  exists cause last rest,
    log (snd (main (Runner.down "0") 2 Runner.boot)) = EndGroup :: last :: rest
    /\ "Failed waiting for cluster: Error: Timeout waiting for cluster to be ready"
       = ("Failed waiting for cluster: " ++ Js.show_error cause)%string.
Proof.
  destruct (failure_names_its_phase (Runner.down "0") 2 Runner.boot
              "Failed waiting for cluster: Error: Timeout waiting for cluster to be ready")
    as (cause & last & rest & Hlog & [Hi | [Hs | Hp]]).
  - vm_compute; reflexivity.
  - destruct Hi as (Hi & _). vm_compute in Hi. discriminate Hi.
  - destruct Hs as (_ & Hs & _). vm_compute in Hs. discriminate Hs.
  - destruct Hp as (_ & _ & _ & _ & Hm & _).
    exists cause, last, rest. split; [ exact Hlog | exact Hm ].
Defined.

(** ** The entry point *)

Lemma failures_app (l1 l2 : list Event) :
  failures (l1 ++ l2) = failures l1 ++ failures l2.
Proof. apply flat_map_app. Qed.

Lemma no_failures (q : Event -> bool) (evs : list Event) :
  (forall e, q e = true -> failures [e] = [] /\ is_cleanup e = false) ->
  forallb q evs = true ->
  failures evs = [] /\ existsb is_cleanup evs = false.
Proof.
  intros Hq Hall. induction evs as [ | e evs IH]; [ split; reflexivity | ].
  simpl in Hall. apply andb_true_iff in Hall as [He Hall].
  destruct (IH Hall) as [IH1 IH2]. destruct (Hq e He) as [Hf Hc].
  change (e :: evs) with ([e] ++ evs).
  rewrite failures_app, existsb_app, Hf, IH1, IH2. cbn. rewrite Hc. auto.
Qed.

(** [main] reports no failure itself and never runs the cleanup. *)
Lemma main_reports_nothing (host : Host) (fuel : nat) (w : World) :
  exists evs, added (log w) evs (snd (main host fuel w))
    /\ failures evs = [] /\ existsb is_cleanup evs = false.
Proof.
  destruct (main_phases host fuel w)
    as (e1 & e2 & e3 & Hlog & _ & Hq1 & Hq2 & Hq3 & _).
  exists (e3 ++ e2 ++ e1 ++ preamble host). split; [ exact Hlog | ].
  destruct (no_failures install_event e1) as [Hf1 Hc1]; [ | exact Hq1 | ].
  { intros e He; destruct e; try discriminate; split; reflexivity. }
  destruct (no_failures start_event e2) as [Hf2 Hc2]; [ | exact Hq2 | ].
  { intros e He; destruct e; try discriminate; split; reflexivity. }
  destruct (no_failures wait_event e3) as [Hf3 Hc3]; [ | exact Hq3 | ].
  { intros e He; destruct e; try discriminate; split; reflexivity. }
  rewrite !failures_app, !existsb_app, Hf1, Hf2, Hf3, Hc1, Hc2, Hc3.
  split; reflexivity.
Qed.

(** X1. [run] never rejects: when the phase it dispatches to throws, the
    error is turned into one [core.setFailed] with the message of the
    error, as the last effect of the run, and [run] returns normally; when
    the phase returns normally nothing is reported as failed. *)
Theorem run_reports_every_failure (host : Host) (fuel : nat) (w : World) :
  let result := run host fuel w in
  (forall m, fst result <> Exn m)
  /\ exists evs, added (log w) evs (snd result)
       /\ match fst (phase host fuel w) with
          | Exn m =>
              fst result = Val tt
              /\ failures evs = [m]
              /\ hd_error evs = Some (SetFailed m)
          | other => fst result = other /\ failures evs = []
          end.
Proof.
  intros result; subst result.
  assert (Hphase : exists evs, added (log w) evs (snd (phase host fuel w))
                     /\ failures evs = []).
  { unfold phase. destruct (getState host "isPost" =? "true")%string.
    - exists [Cleanup (cleanup_result host (log w))]. split; [ | reflexivity ].
      unfold added, cleanup, bind, perform; cbn [fst snd].
      destruct (cleanup_result host (log w)); reflexivity.
    - destruct (main_reports_nothing host fuel w) as (evs & Hlog & Hf & _).
      exists evs; auto. }
  destruct Hphase as (evs & Hlog & Hnone).
  assert (Hrun : run host fuel w
                 = match phase host fuel w with
                   | (Exn m, w') => (Val tt, after host (SetFailed m) w')
                   | other => other
                   end).
  { unfold run, phase, try_catch, setFailed, after.
    destruct (getState host "isPost" =? "true")%string;
      [ destruct (cleanup host w) as [[[] | m | ] w']
      | destruct (main host fuel w) as [[[] | m | ] w'] ]; reflexivity. }
  rewrite Hrun. unfold added in *.
  destruct (phase host fuel w) as [[[] | m | ] w']; cbn [fst snd] in *.
  - split; [ discriminate | ]. exists evs; auto.
  - split; [ discriminate | ]. exists (SetFailed m :: evs).
    cbn [after perform snd log]. rewrite Hlog.
    change (SetFailed m :: evs) with ([SetFailed m] ++ evs).
    rewrite failures_app, Hnone. repeat split.
  - split; [ discriminate | ]. exists evs; auto.
Qed.

(** X2. The two phases exclude each other.  In the post-run invocation
    (the saved state "isPost" reads "true") [run] itself does nothing but
    call the cleanup, and report its failure if it has one: nothing of
    [main] is run, no installer, launcher or poller step.  What the
    cleanup does is outside this file.  In any other invocation the
    cleanup is never called. *)
Theorem phases_exclude_each_other (host : Host) (fuel : nat) (w : World) :
  exists evs, added (log w) evs (snd (run host fuel w))
    /\ (getState host "isPost" = "true" ->
          let outcome := cleanup_result host (log w) in
          evs = match outcome with
                | None => [Cleanup None]
                | Some m => [SetFailed m; Cleanup (Some m)]
                end)
    /\ (getState host "isPost" <> "true" -> existsb is_cleanup evs = false).
Proof.
  destruct (String.eqb_spec (getState host "isPost") "true") as [Hpost | Hmain].
  - exists (match cleanup_result host (log w) with
            | None => [Cleanup None]
            | Some m => [SetFailed m; Cleanup (Some m)]
            end).
    split; [ | split; [ reflexivity | contradiction ] ].
    unfold added, run, try_catch, cleanup, bind, setFailed, perform, throw, ret.
    rewrite Hpost; cbn [String.eqb Ascii.eqb Bool.eqb fst snd log].
    destruct (cleanup_result host (log w)); reflexivity.
  - destruct (main_reports_nothing host fuel w) as (evs & Hlog & _ & Hclean).
    apply String.eqb_neq in Hmain.
    unfold added, run, try_catch, setFailed in *. rewrite Hmain.
    destruct (main host fuel w) as [[[] | m | ] w']; cbn [fst snd] in *.
    1, 3: exists evs; repeat split; auto; intros Hpost;
      apply String.eqb_neq in Hmain; contradiction.
    exists (SetFailed m :: evs). cbn [perform snd log]. rewrite Hlog.
    repeat split; auto.
    intros Hpost; apply String.eqb_neq in Hmain; contradiction.
Qed.

Lemma phases_exclude_each_other_witness :
  log (snd (run (Runner.post (log (snd (main Runner.riscv 0 Runner.boot)))) 0
              Runner.boot))
  = [Cleanup None].
Proof.
  destruct (phases_exclude_each_other
              (Runner.post (log (snd (main Runner.riscv 0 Runner.boot)))) 0
              Runner.boot) as (evs & Hadded & Hpost & _).
  unfold added in Hadded. rewrite Hadded, (Hpost eq_refl). reflexivity.
Defined.

(** ** Phases run in order and stop at the first failure *)

Lemma installer_leaves_launcher_alone (host : Host) (version : string) :
  emits (fun e => negb (is_launcher e) && negb (is_readiness e))
    (installK0s host version).
Proof. unfold installK0s, info, startGroup, endGroup; footprint. Qed.

(** X4. [main] stops at the first phase that fails.  When the installer
    does not return normally, [main] ends as the installer did and in the
    world it left: the launcher has not been started and nothing of it is
    in the log.  When the launcher does not return normally, [main] ends
    as the launcher did.  So anything of the launcher in the log shows
    that the installer had succeeded, and anything of the poller shows
    that both had. *)
Theorem main_stops_at_first_failure (host : Host) (fuel : nat) (w : World) :
  let i := installK0s host (version_input host) (started host w) in
  let s := startK0s host (snd i) in
  (fst i <> Val tt -> main host fuel w = i)
  /\ (fst i = Val tt -> fst s <> Val tt -> main host fuel w = s)
  /\ exists evs, added (log w) evs (snd (main host fuel w))
       /\ (existsb is_launcher evs = true -> fst i = Val tt)
       /\ (existsb is_readiness evs = true -> fst i = Val tt /\ fst s = Val tt).
Proof.
  intros i s; subst i s. rewrite main_spec.
  destruct (installer_leaves_launcher_alone host (version_input host)
              (started host w)) as (e1 & H1 & Hq1 & _).
  assert (Hquiet1 : existsb is_launcher (e1 ++ preamble host) = false
                    /\ existsb is_readiness (e1 ++ preamble host) = false).
  { rewrite !existsb_app. split.
    - rewrite (existsb_none is_launcher e1); [ reflexivity | ].
      eapply forallb_weaken; [ | exact Hq1 ].
      intros e He; cbv beta in He. destruct (is_launcher e); [ discriminate | reflexivity ].
    - rewrite (existsb_none is_readiness e1); [ reflexivity | ].
      eapply forallb_weaken; [ | exact Hq1 ].
      intros e He; cbv beta in He.
      destruct (is_launcher e), (is_readiness e); (discriminate || reflexivity). }
  destruct Hquiet1 as [Hl1 Hr1].
  destruct (installK0s host _ _) as [[[] | e | ] w1]; cbn [fst snd] in *.
  2, 3: (split; [ reflexivity | ]); (split; [ intros Hc; discriminate | ]);
    exists (e1 ++ preamble host); unfold added; cbn [snd];
    rewrite H1, started_log, Hl1, Hr1;
    (split; [ assoc | split; discriminate ]).
  split; [ intros Hc; congruence | ].
  destruct (emits_startK0s host w1) as (e2 & H2 & Hq2 & _).
  assert (Hr2 : existsb is_readiness e2 = false).
  { apply existsb_none. eapply forallb_weaken; [ | exact Hq2 ].
    intros e He; unfold start_event in He.
    destruct (is_readiness e); [ discriminate | reflexivity ]. }
  destruct (startK0s host w1) as [[[] | e | ] w2]; cbn [fst snd] in *.
  2, 3: (split; [ reflexivity | ]);
    exists (e2 ++ e1 ++ preamble host); unfold added; cbn [snd];
    rewrite H2, H1, started_log, (existsb_app is_readiness e2), Hr2, Hr1;
    (split; [ assoc | split; [ reflexivity | discriminate ] ]).
  split; [ intros _ Hc; congruence | ].
  destruct (emits_waitForClusterReady host fuel (timeout_input host) w2)
    as (e3 & H3 & _).
  unfold added.
  destruct (waitForReady_input host);
    [ destruct (waitForClusterReady host fuel _ w2) as [[[] | e | ] w3] | ];
    cbn [fst snd after perform log] in *; rewrite ?H3, H2, H1, started_log.
  - exists (Info done_message :: e3 ++ e2 ++ e1 ++ preamble host).
    split; [ assoc | split; auto ].
  - exists (e3 ++ e2 ++ e1 ++ preamble host). split; [ assoc | split; auto ].
  - exists (e3 ++ e2 ++ e1 ++ preamble host). split; [ assoc | split; auto ].
  - exists (Info done_message :: e2 ++ e1 ++ preamble host).
    split; [ assoc | split; auto ].
Qed.

Lemma main_stops_at_first_failure_witness :
  main Runner.riscv 0 Runner.boot
  = installK0s Runner.riscv (version_input Runner.riscv)
      (started Runner.riscv Runner.boot).
Proof.
  apply (main_stops_at_first_failure Runner.riscv 0 Runner.boot).
  vm_compute; discriminate.
Defined.

(** ** Log groups *)

Lemma closes_app (pending : nat) (l1 l2 : list Event) :
  closes pending (l1 ++ l2)
  = match closes pending l1 with
    | Some k => closes k l2
    | None => None
    end.
Proof.
  revert pending; induction l1 as [ | e l1 IH]; intros pending; simpl;
    [ reflexivity | ].
  destruct e; auto. destruct pending; auto.
Qed.

Lemma closes_plain (pending : nat) (evs : list Event) :
  forallb (fun e => negb (is_group e)) evs = true ->
  closes pending evs = Some pending.
Proof.
  induction evs as [ | e evs IH]; simpl; [ reflexivity | ].
  intros [He Hall]%andb_true_iff. destruct e; try discriminate; auto.
Qed.

Lemma closes_shift (n k : nat) (evs : list Event) :
  closes 0 evs = Some k -> closes n evs = Some (n + k)%nat.
Proof.
  assert (Hgen : forall p q, closes p evs = Some q ->
                   closes (n + p) evs = Some (n + q)%nat).
  { induction evs as [ | e evs IH]; intros p q; simpl.
    - intros Heq; inversion Heq; reflexivity.
    - destruct e; auto.
      + destruct p as [ | p]; [ discriminate | ].
        rewrite Nat.add_succ_r. apply IH.
      + intros Hc. rewrite (plus_n_Sm n p). apply IH. exact Hc. }
  intros Hc. specialize (Hgen _ _ Hc). rewrite Nat.add_0_r in Hgen. exact Hgen.
Qed.

Lemma balanced_app (l1 l2 : list Event) :
  balanced l1 -> balanced l2 -> balanced (l1 ++ l2).
Proof. unfold balanced; intros H1 H2. now rewrite closes_app, H1. Qed.

Lemma tidy_of_emits {A} (m : M A) :
  emits (fun e => negb (is_group e)) m -> tidy m.
Proof.
  intros Hm w. destruct (Hm w) as (evs & Hlog & Hq & _).
  exists evs; split; [ exact Hlog | intros _; now apply closes_plain ].
Qed.

Lemma tidy_bind {A B} (m : M A) (k : A -> M B) :
  tidy m -> (forall a, tidy (k a)) -> tidy (bind m k).
Proof.
  intros Hm Hk w. unfold bind.
  destruct (Hm w) as (evs & Hlog & Hb).
  destruct (m w) as [[a | e | ] w1]; cbn [fst snd] in *.
  - destruct (Hk a w1) as (evs' & Hlog' & Hb').
    exists (evs' ++ evs). rewrite Hlog', Hlog, app_assoc.
    split; [ reflexivity | ].
    intros Hrun.
    apply balanced_app; [ exact (Hb' Hrun) | apply Hb; intros Hc; discriminate Hc ].
  - exists evs; split; [ exact Hlog | ].
    intros _; apply Hb; intros Hc; discriminate Hc.
  - exists evs; split; [ exact Hlog | ].
    intros Hc; exfalso; apply Hc; reflexivity.
Qed.

Lemma tidy_try_catch {A} (m : M A) (handler : string -> M A) :
  tidy m -> (forall e, tidy (handler e)) -> tidy (try_catch m handler).
Proof.
  intros Hm Hh w. unfold try_catch.
  destruct (Hm w) as (evs & Hlog & Hb).
  destruct (m w) as [[a | e | ] w1]; cbn [fst snd] in *.
  - exists evs; split; [ exact Hlog | exact Hb ].
  - destruct (Hh e w1) as (evs' & Hlog' & Hb').
    exists (evs' ++ evs). rewrite Hlog', Hlog, app_assoc.
    split; [ reflexivity | ].
    intros Hrun.
    apply balanced_app; [ exact (Hb' Hrun) | apply Hb; intros Hc; discriminate Hc ].
  - exists evs; split; [ exact Hlog | exact Hb ].
Qed.

(** A group opened before a [try] and closed in its [finally] is closed
    whatever the body did, unless the body is still running. *)
Lemma tidy_group {A} (host : Host) (name : string) (body : M A) :
  tidy body ->
  tidy (startGroup host name;; try_finally body (endGroup host)).
Proof.
  intros Hbody w.
  cbv beta iota zeta delta
    [bind try_finally startGroup endGroup perform fst snd].
  destruct (Hbody (after host (StartGroup name) w)) as (evs & Hlog & Hb).
  unfold after, perform in Hlog, Hb; cbn [fst snd log] in Hlog, Hb.
  destruct (body _) as [[a | e | ] w1]; cbn [fst snd log] in *.
  1, 2: exists (EndGroup :: evs ++ [StartGroup name]); rewrite Hlog;
    (split; [ assoc | intros _ ]); unfold balanced; cbn [closes];
    rewrite closes_app, (closes_shift 1 0 evs) by (apply Hb; discriminate);
    reflexivity.
  exists (evs ++ [StartGroup name]); rewrite Hlog.
  split; [ assoc | intros Hc; contradiction ].
Qed.

Lemma tidy_showDiagnostics (host : Host) : tidy (showDiagnostics host).
Proof.
  unfold showDiagnostics. apply tidy_group, tidy_of_emits.
  unfold info, warning; footprint.
Qed.

Lemma tidy_pollLoop (host : Host) (fuel : nat) (startTime : Z) (t : Js.number) :
  tidy (pollLoop host fuel startTime t).
Proof.
  induction fuel as [ | fuel IH]; simpl.
  - intros w; exists []; split; [ reflexivity | intros Hc; contradiction ].
  - apply tidy_bind; [ | intros []; [ apply tidy_of_emits; footprint | exact IH ] ].
    unfold pollCycle. apply tidy_bind; [ apply tidy_of_emits; footprint | intros now ].
    destruct (Js.gt _ _).
    + apply tidy_bind; [ apply tidy_of_emits; unfold logError; footprint | intros _ ].
      apply tidy_bind; [ apply tidy_showDiagnostics | intros _ ].
      apply tidy_of_emits; footprint.
    + apply tidy_of_emits. unfold checkLayers, info.
      apply emits_bind; [ footprint | intros [] ]; footprint.
Qed.

Lemma tidy_main (host : Host) (fuel : nat) : tidy (main host fuel).
Proof.
  unfold main. apply tidy_try_catch; [ | intros; apply tidy_of_emits; footprint ].
  apply tidy_bind; [ apply tidy_of_emits; unfold info; footprint | intros _ ].
  apply tidy_bind; [ apply tidy_of_emits; unfold saveState; footprint | intros _ ].
  apply tidy_bind; [ apply tidy_of_emits; unfold info; footprint | intros _ ].
  apply tidy_bind; [ | intros _ ].
  { unfold installK0s. apply tidy_group, tidy_of_emits. unfold info; footprint. }
  apply tidy_bind; [ | intros _ ].
  { unfold startK0s. apply tidy_group, tidy_of_emits.
    unfold info, setOutput, exportVariable; footprint. }
  apply tidy_bind; [ | intros _; apply tidy_of_emits; unfold info; footprint ].
  destruct (waitForReady_input host); [ | apply tidy_of_emits; footprint ].
  unfold waitForClusterReady. apply tidy_group, tidy_try_catch;
    [ | intros; apply tidy_of_emits; footprint ].
  apply tidy_bind; [ apply tidy_of_emits; unfold info; footprint | intros _ ].
  apply tidy_bind; [ apply tidy_of_emits; footprint | intros startTime ].
  apply tidy_bind; [ apply tidy_pollLoop | intros _ ].
  apply tidy_of_emits; unfold info; footprint.
Qed.

(** X5. Every log group is closed again, whatever happens: each of
    [installK0s], [startK0s], [waitForClusterReady] and [showDiagnostics]
    opens one group and closes it in its [finally] block, so that in the
    log of a run of [main] that has ended, normally or with an error, the
    groups are opened and closed in matching pairs, the diagnostics group
    inside the group of the poller. *)
Theorem groups_are_closed (host : Host) (fuel : nat) (w : World) :
  fst (main host fuel w) <> Spin ->
  exists evs, added (log w) evs (snd (main host fuel w)) /\ balanced evs.
Proof.
  intros Hended. destruct (tidy_main host fuel w) as (evs & Hlog & Hb).
  exists evs; split; [ exact Hlog | exact (Hb Hended) ].
Qed.

Lemma groups_are_closed_witness :
  exists evs,
    added (log Runner.boot) evs (snd (main (Runner.down "0") 2 Runner.boot))
    /\ balanced evs.
Proof.
  apply (groups_are_closed (Runner.down "0") 2 Runner.boot).
  vm_compute; discriminate.
Defined.

(** ** Straight-line phases fail fast *)

(** X6. [installK0s] runs its processes in one fixed order (the
    architecture probe, the version resolution when the version is
    "latest", the download, the privileged install, the removal of the
    scratch file, the verification), each at most once, and stops at the
    first one that fails: every process but the last one run has exited
    with 0.  It returns normally exactly when all of them have been run
    and have exited with 0. *)
Theorem installer_fails_fast (host : Host) (version : string) (w : World) :
  let result := installK0s host version w in
  exists evs, added (log w) evs (snd result)
    /\ (exists actualVersion binaryArch n,
          map fst (processes evs)
          = firstn n (install_plan version actualVersion binaryArch))
    /\ all_but_last succeeded (processes evs) = true
    /\ returned (fst result)
       = forallb succeeded (processes evs)
         && Nat.eqb (List.length (processes evs))
              (List.length (install_plan version EmptyString EmptyString)).
Proof.
  intros result; subst result. destruct w as [clk lg].
  set (P := fun rw : Res unit * World =>
    exists evs, added lg evs (snd rw)
    /\ (exists actualVersion binaryArch n,
          map fst (processes evs)
          = firstn n (install_plan version actualVersion binaryArch))
    /\ all_but_last succeeded (processes evs) = true
    /\ returned (fst rw)
       = forallb succeeded (processes evs)
         && Nat.eqb (List.length (processes evs))
              (List.length (install_plan version EmptyString EmptyString))).
  change (P (installK0s host version {| clock := clk; log := lg |})).
  symex.
  all: subst P; cbv beta; unfold added, install_plan; cbn [fst snd log].
  all: eexists; split; [ split_log | ].
  all: destruct (String.eqb_spec version "latest"); try contradiction.
  all: zero_or_not.
  all: cbn; repeat split.
  all: first
    [ exists EmptyString, EmptyString, 1%nat; reflexivity
    | exists EmptyString, EmptyString, 2%nat; reflexivity
    | do 2 eexists; exists 2%nat; reflexivity
    | do 2 eexists; exists 3%nat; reflexivity
    | do 2 eexists; exists 4%nat; reflexivity
    | do 2 eexists; exists 5%nat; reflexivity
    | do 2 eexists; exists 6%nat; reflexivity ].
Qed.

Lemma installer_fails_fast_witness :
  exists evs,
    added (log Runner.boot) evs
      (snd (installK0s Runner.broken_install "latest" Runner.boot))
    /\ map fst (processes evs)
       = [uname_cmd; resolve_cmd;
          download_cmd (downloadUrl "v1.30.0+k0s.0" "amd64"); install_cmd].
Proof.
  destruct (installer_fails_fast Runner.broken_install "latest" Runner.boot)
    as (evs & Hadded & _).
  exists evs. split; [ exact Hadded | ].
  unfold added in Hadded; rewrite app_nil_r in Hadded; subst evs.
  vm_compute; reflexivity.
Defined.

(** X7. [startK0s] runs its processes in one fixed order (registering the
    controller, starting it, extracting the kubeconfig, restricting the
    permissions of the file), each at most once, and stops at the first
    one that fails.  It returns normally exactly when all four have been
    run and have exited with 0; and it publishes the path of the
    kubeconfig, as the output and as the variable, exactly when it
    returns normally: a launcher that fails publishes nothing. *)
Theorem launcher_fails_fast (host : Host) (w : World) :
  let result := startK0s host w in
  exists evs, added (log w) evs (snd result)
    /\ (exists n, map fst (processes evs) = firstn n (start_plan host))
    /\ all_but_last succeeded (processes evs) = true
    /\ returned (fst result)
       = forallb succeeded (processes evs)
         && Nat.eqb (List.length (processes evs)) 4
    /\ published evs
       = if returned (fst result)
         then [ExportVariable "KUBECONFIG" (kubeconfigPath host);
               SetOutput "kubeconfig" (kubeconfigPath host)]
         else [].
Proof.
  intros result; subst result. destruct w as [clk lg].
  set (P := fun rw : Res unit * World =>
    exists evs, added lg evs (snd rw)
    /\ (exists n, map fst (processes evs) = firstn n (start_plan host))
    /\ all_but_last succeeded (processes evs) = true
    /\ returned (fst rw)
       = forallb succeeded (processes evs)
         && Nat.eqb (List.length (processes evs)) 4
    /\ published evs
       = if returned (fst rw)
         then [ExportVariable "KUBECONFIG" (kubeconfigPath host);
               SetOutput "kubeconfig" (kubeconfigPath host)]
         else []).
  change (P (startK0s host {| clock := clk; log := lg |})).
  symex.
  all: subst P; cbv beta; unfold added, start_plan; cbn [fst snd log].
  all: eexists; split; [ split_log | ].
  all: zero_or_not.
  all: cbn; repeat split.
  all: first
    [ exists 1%nat; reflexivity | exists 2%nat; reflexivity
    | exists 3%nat; reflexivity | exists 4%nat; reflexivity ].
Qed.

(** X8. Once [k0s start] has succeeded, [startK0s] always goes on to
    extract the kubeconfig: it creates the directory first, and an error
    of [mkdir] is swallowed and changes nothing to that; and it sleeps ten
    seconds before, so that the extraction never comes less than ten
    seconds after the call.  Before a successful start it does neither. *)
Theorem launcher_waits_then_extracts (host : Host) (w : World) :
  let result := startK0s host w in
  exists evs, added (log w) evs (snd result)
    /\ existsb is_extraction evs = existsb is_service_started evs
    /\ existsb (is_mkdir host) evs = existsb is_service_started evs
    /\ (existsb is_extraction evs = true ->
          clock w + 10000 <= clock (snd result)).
Proof.
  intros result; subst result. destruct w as [clk lg].
  set (P := fun rw : Res unit * World =>
    exists evs, added lg evs (snd rw)
    /\ existsb is_extraction evs = existsb is_service_started evs
    /\ existsb (is_mkdir host) evs = existsb is_service_started evs
    /\ (existsb is_extraction evs = true -> clk + 10000 <= clock (snd rw))).
  change (P (startK0s host {| clock := clk; log := lg |})).
  symex.
  all: subst P; cbv beta; unfold added; cbn [fst snd log clock].
  all: eexists; split; [ split_log | ].
  all: zero_or_not.
  all: cbn [existsb is_extraction is_service_started is_mkdir orb];
    rewrite ?String.eqb_refl.
  all: cbn; repeat split; try discriminate; intros; lia.
Qed.

Lemma launcher_waits_then_extracts_witness :
  0 + 10000 <= clock (snd (startK0s Runner.healthy Runner.boot)).
Proof.
  destruct (launcher_waits_then_extracts Runner.healthy Runner.boot)
    as (evs & Hadded & _ & _ & Hwait).
  apply Hwait.
  unfold added in Hadded; rewrite app_nil_r in Hadded; rewrite <- Hadded.
  vm_compute; reflexivity.
Defined.

(** ** One poll cycle *)

(** The paths through the four-layer check. *)
Lemma checkLayers_paths (host : Host) (w : World) :
  let result := checkLayers host w in
  exists evs, added (log w) evs (snd result)
    /\ (exists n, map fst (processes evs) = firstn n layer_cmds)
    /\ all_but_last layer_passed (processes evs) = true
    /\ match fst result with
       | Val ready =>
           ready = forallb layer_passed (processes evs)
                   && Nat.eqb (List.length (processes evs)) 4
       | Exn m => exists c, hd_error (rev (processes evs)) = Some (c, NotStarted m)
       | Spin => False
       end.
Proof.
  intros result; subst result. destruct w as [clk lg].
  set (P := fun rw : Res bool * World =>
    exists evs, added lg evs (snd rw)
    /\ (exists n, map fst (processes evs) = firstn n layer_cmds)
    /\ all_but_last layer_passed (processes evs) = true
    /\ match fst rw with
       | Val ready =>
           ready = forallb layer_passed (processes evs)
                   && Nat.eqb (List.length (processes evs)) 4
       | Exn m => exists c, hd_error (rev (processes evs)) = Some (c, NotStarted m)
       | Spin => False
       end).
  change (P (checkLayers host {| clock := clk; log := lg |})).
  symex.
  all: subst P; cbv beta; unfold added, layer_cmds; cbn [fst snd log].
  all: eexists; split; [ split_log | ].
  all: zero_or_not.
  all: cbn; repeat split; eauto.
  all: first
    [ exists 1%nat; reflexivity | exists 2%nat; reflexivity
    | exists 3%nat; reflexivity | exists 4%nat; reflexivity ].
Qed.

(** X9. The four probes of a poll cycle short-circuit: they are run in
    the order service, API, nodes, pods, and a probe is only run when all
    the probes before it have passed (exit code 0 for the first two, a
    non-zero exit code for the two [grep -v] pipelines).  What the cycle
    does next is decided by the last probe it has run.  When that probe
    could not be started, the cycle throws the error of that failure, and
    it throws in no other case; when the probe has exited, the cycle
    completes, and it ends the loop exactly when all four probes have been
    run and have passed. *)
Theorem layers_short_circuit (host : Host) (w : World) :
  let result := checkLayers host w in
  exists evs, added (log w) evs (snd result)
    /\ (exists n, map fst (processes evs) = firstn n layer_cmds)
    /\ all_but_last layer_passed (processes evs) = true
    /\ match hd_error (rev (processes evs)) with
       | Some (_, NotStarted message) => fst result = Exn message
       | Some (_, Exited _ _) =>
           fst result
           = Val (forallb layer_passed (processes evs)
                  && Nat.eqb (List.length (processes evs)) 4)
       | None => False
       end.
Proof.
  intros result; subst result. destruct w as [clk lg].
  set (P := fun rw : Res bool * World =>
    exists evs, added lg evs (snd rw)
    /\ (exists n, map fst (processes evs) = firstn n layer_cmds)
    /\ all_but_last layer_passed (processes evs) = true
    /\ match hd_error (rev (processes evs)) with
       | Some (_, NotStarted message) => fst rw = Exn message
       | Some (_, Exited _ _) =>
           fst rw
           = Val (forallb layer_passed (processes evs)
                  && Nat.eqb (List.length (processes evs)) 4)
       | None => False
       end).
  change (P (checkLayers host {| clock := clk; log := lg |})).
  symex.
  all: subst P; cbv beta; unfold added, layer_cmds; cbn [fst snd log].
  all: eexists; split; [ split_log | ].
  all: zero_or_not.
  all: cbn; repeat split.
  all: first
    [ exists 1%nat; reflexivity | exists 2%nat; reflexivity
    | exists 3%nat; reflexivity | exists 4%nat; reflexivity ].
Qed.

(** ** The poller and the clock *)

Lemma seconds_bound (a t : Z) :
  (a / 1000 <= t -> a < 1000 * (t + 1)) /\ (t < a / 1000 -> 1000 * (t + 1) <= a).
Proof.
  pose proof (Z.div_mod a 1000 ltac:(lia)).
  pose proof (Z.mod_pos_bound a 1000 ltac:(lia)).
  split; lia.
Qed.

Lemma layers_never_spin (host : Host) (w : World) :
  fst (checkLayers host w) <> Spin.
Proof.
  destruct (checkLayers_paths host w) as (evs & _ & _ & _ & Hres).
  intros Hspin. rewrite Hspin in Hres. exact Hres.
Qed.

(** One more cycle of fuel changes nothing to a loop that has ended. *)
Lemma pollLoop_more_fuel (host : Host) (startTime : Z) (t : Js.number)
  (fuel fuel' : nat) (w : World) :
  fst (pollLoop host fuel startTime t w) <> Spin ->
  (fuel <= fuel')%nat ->
  pollLoop host fuel' startTime t w = pollLoop host fuel startTime t w.
Proof.
  revert fuel' w; induction fuel as [ | fuel IH]; intros fuel' w Hended Hle.
  - exfalso; apply Hended; reflexivity.
  - destruct fuel' as [ | fuel']; [ lia | ].
    rewrite !pollLoop_step in *.
    destruct (pollCycle host startTime t w) as [[[ | ] | e | ] w1];
      try reflexivity.
    apply IH; [ exact Hended | lia ].
Qed.

(** A loop entered with [fuel] cycles to run ends when its deadline is no
    more than [fuel - 1] sleeps away. *)
Lemma pollLoop_ends (host : Host) (startTime t : Z) (fuel : nat) (w : World) :
  (1 <= fuel)%nat ->
  1000 * (t + 1) - (clock w - startTime) <= 5000 * (Z.of_nat fuel - 1) ->
  fst (pollLoop host fuel startTime (Js.Num t) w) <> Spin.
Proof.
  revert w; induction fuel as [ | fuel IH]; intros w Hfuel Hleft; [ lia | ].
  rewrite pollLoop_step, pollCycle_spec; cbv zeta; cbn [Js.gt].
  destruct (Z.ltb_spec t ((clock w - startTime) / 1000)) as [Hfire | Hnot];
    [ discriminate | ].
  pose proof (proj1 (seconds_bound _ _) Hnot) as Hearly.
  destruct (emits_layers host (after host (Now (clock w)) w)) as (cvs & _ & _ & Hmono).
  pose proof (layers_never_spin host (after host (Now (clock w)) w)) as Hspin.
  destruct (checkLayers host _) as [[[ | ] | e | ] w2]; cbn [fst snd] in *;
    try discriminate; [ | contradiction ].
  cbn [after perform snd clock] in Hmono.
  apply IH; cbn [sleep after perform snd clock]; lia.
Qed.

Lemma wait_more_fuel (host : Host) (t : Js.number) (fuel fuel' : nat) (w : World) :
  fst (waitForClusterReady host fuel t w) <> Spin ->
  (fuel <= fuel')%nat ->
  waitForClusterReady host fuel' t w = waitForClusterReady host fuel t w.
Proof.
  rewrite !waitForClusterReady_spec; cbv zeta. intros Hended Hle.
  rewrite (pollLoop_more_fuel host _ t fuel fuel'); [ reflexivity | | exact Hle ].
  intros Hspin. rewrite Hspin in Hended. apply Hended; reflexivity.
Qed.

(** X10. With a numeric timeout of [t] seconds the poller always ends,
    whatever the probes answer: every cycle that does not end the loop
    sleeps five seconds, so the deadline check fires after [t / 5 + 1]
    such cycles at the latest.  Run for [t / 5 + 2] cycles or more, the
    poller returns or throws, and what it does no longer depends on how
    many more cycles it could have run. *)
Theorem poller_terminates (host : Host) (t : Z) (w : World) :
  exists result,
    fst result <> Spin
    /\ forall fuel, (Z.to_nat (t / 5) + 2 <= fuel)%nat ->
         waitForClusterReady host fuel (Js.Num t) w = result.
Proof.
  set (bound := (Z.to_nat (t / 5) + 2)%nat).
  assert (Hended : fst (waitForClusterReady host bound (Js.Num t) w) <> Spin).
  { rewrite waitForClusterReady_spec; cbv zeta.
    match goal with
    | |- context [pollLoop host bound ?s (Js.Num t) ?x] =>
        pose proof (pollLoop_ends host s t bound x) as Hloop
    end.
    cbn [after perform snd clock] in Hloop.
    assert (Hfive : t - 4 <= 5 * (t / 5)).
    { pose proof (Z.div_mod t 5 ltac:(lia)).
      pose proof (Z.mod_pos_bound t 5 ltac:(lia)). lia. }
    specialize (Hloop ltac:(subst bound; lia) ltac:(subst bound; lia)).
    destruct (pollLoop host bound _ _ _) as [[[] | e | ] wl]; cbn [fst] in *;
      [ discriminate | discriminate | contradiction ]. }
  exists (waitForClusterReady host bound (Js.Num t) w).
  split; [ exact Hended | ].
  intros fuel Hfuel. apply wait_more_fuel; assumption.
Qed.

Lemma emits_layers_calm (host : Host) : emits calm_event (checkLayers host).
Proof. unfold checkLayers, info; footprint. Qed.

Lemma pollLoop_not_early (host : Host) (startTime t : Z) (fuel : nat) (w : World) :
  let result := pollLoop host fuel startTime (Js.Num t) w in
  exists evs, added (log w) evs (snd result)
    /\ clock w <= clock (snd result)
    /\ (count is_timeout evs = 0%nat
        \/ startTime + 1000 * (t + 1) <= clock (snd result)).
Proof.
  cbv zeta. revert w; induction fuel as [ | fuel IH]; intros w.
  - exists []; cbn; repeat split; auto; lia.
  - rewrite pollLoop_step, pollCycle_spec; cbv zeta; cbn [Js.gt].
    destruct (Z.ltb_spec t ((clock w - startTime) / 1000)) as [Hfire | Hnot].
    + pose proof (proj2 (seconds_bound _ _) Hfire) as Hlate.
      destruct (emits_showDiagnostics host
                  (after host (LogError timeout_message)
                     (after host (Now (clock w)) w)))
        as (dvs & Hdlog & _ & Hmono).
      exists (dvs ++ [LogError timeout_message; Now (clock w)]).
      unfold added; cbn [snd]. rewrite Hdlog.
      cbn [after perform snd clock log] in *.
      split; [ assoc | split; [ lia | right; lia ] ].
    + destruct (emits_layers_calm host (after host (Now (clock w)) w))
        as (cvs & Hclog & Hcq & Hmono).
      destruct (calm_counts _ Hcq) as [Hnone _].
      destruct (checkLayers host _) as [[[ | ] | e | ] w2];
        cbn [fst snd after perform clock log] in *.
      2: {
        match goal with
        | |- context [pollLoop host fuel startTime (Js.Num t) ?x] =>
            destruct (IH x) as (evs & Hlog & Hmono' & Hcases)
        end.
        unfold added in *.
        eexists (evs ++ Sleep 5000 :: Info _ :: cvs ++ [Now (clock w)]).
        rewrite Hlog. cbn [sleep after perform snd clock log] in *.
        split; [ rewrite Hclog; assoc | split; [ lia | ] ].
        destruct Hcases as [Hzero | Hlate]; [ left | right; exact Hlate ].
        rewrite count_app, Hzero.
        change (Sleep 5000 :: Info ?m :: cvs ++ ?l)
          with ([Sleep 5000; Info m] ++ cvs ++ l).
        rewrite !count_app, Hnone. reflexivity. }
      all: exists (cvs ++ [Now (clock w)]); unfold added; cbn [snd];
        rewrite Hclog; (split; [ assoc | split; [ lia | left ] ]);
        rewrite count_app, Hnone; reflexivity.
Qed.

(** X11. The poller never times out early: when it logs its timeout with
    a timeout of [t] seconds, more than [t] whole seconds, that is at
    least [t + 1] seconds, have passed on the clock since it was called. *)
Theorem timeout_is_never_early (host : Host) (fuel : nat) (t : Z) (w : World) :
  let result := waitForClusterReady host fuel (Js.Num t) w in
  exists evs, added (log w) evs (snd result)
    /\ (count is_timeout evs = 0%nat
        \/ clock w + 1000 * (t + 1) <= clock (snd result)).
Proof.
  cbv zeta. rewrite waitForClusterReady_spec; cbv zeta.
  match goal with
  | |- context [pollLoop host fuel ?s (Js.Num t) ?x] =>
      destruct (pollLoop_not_early host s t fuel x)
        as (evs & Hlog & Hmono & Hcases);
      destruct (pollLoop host fuel s (Js.Num t) x) as [r wl]
  end.
  cbn [fst snd after perform clock log] in *. unfold added in *.
  assert (Hcount : forall l1 l3,
            count is_timeout l1 = 0%nat -> count is_timeout l3 = 0%nat ->
            count is_timeout evs = 0%nat ->
            count is_timeout (l1 ++ evs ++ l3) = 0%nat).
  { intros l1 l3 H1 H3 H2. rewrite !count_app, H1, H2, H3. reflexivity. }
  destruct r as [[] | e | ]; cbn [fst snd after perform clock log]; rewrite Hlog.
  - eexists ([EndGroup; Info _] ++ evs ++ [Now _; Info _; StartGroup _]).
    split; [ assoc | ].
    destruct Hcases as [Hzero | Hlate];
      [ left; apply Hcount; auto; reflexivity | right; lia ].
  - eexists ([EndGroup] ++ evs ++ [Now _; Info _; StartGroup _]).
    split; [ assoc | ].
    destruct Hcases as [Hzero | Hlate];
      [ left; apply Hcount; auto; reflexivity | right; lia ].
  - eexists ([] ++ evs ++ [Now _; Info _; StartGroup _]).
    split; [ assoc | ].
    destruct Hcases as [Hzero | Hlate];
      [ left; apply Hcount; auto; reflexivity | right; lia ].
Qed.

(** X12. A negative timeout makes the poller give up at once: the elapsed
    time is never negative, so the very first deadline check fires; the
    poller runs none of its probes, runs the diagnostics once and throws
    the timeout error, whatever the state of the cluster. *)
Theorem negative_timeout_fires_at_once (host : Host) (t : Z) (w : World) :
  t < 0 ->
  exists w' evs,
    (forall fuel, (1 <= fuel)%nat ->
       waitForClusterReady host fuel (Js.Num t) w
       = (Exn "Failed waiting for cluster: Error: Timeout waiting for cluster to be ready",
          w'))
    /\ added (log w) evs w'
    /\ deadline_checks evs = 1%nat
    /\ existsb is_layer_probe evs = false
    /\ count is_diagnostics evs = 1%nat.
Proof.
  intros Hneg.
  assert (Hquiet : emits (fun e => negb (is_layer_probe e) && negb (is_clock_read e))
                     (showDiagnostics host)).
  { unfold showDiagnostics, info, warning, startGroup, endGroup; footprint. }
  remember (after host
              (Info ("Waiting for k0s cluster to be ready (timeout: "
                       ++ Js.show_number (Js.Num t) ++ "s)...")%string)
              (after host (StartGroup "Waiting for cluster ready") w)) as w0 eqn:Ew0.
  assert (Hw0 : log w0
                = [Info ("Waiting for k0s cluster to be ready (timeout: "
                           ++ Js.show_number (Js.Num t) ++ "s)...")%string;
                   StartGroup "Waiting for cluster ready"] ++ log w)
    by (subst w0; reflexivity).
  remember (clock w0) as t0 eqn:Et0.
  remember (after host (Now t0) w0) as w1 eqn:Ew1.
  assert (Hw1 : log w1 = Now t0 :: log w0 /\ t0 <= clock w1)
    by (subst w1; cbn; split; [ reflexivity | lia ]).
  destruct Hw1 as [Hw1log Hw1clk].
  remember (clock w1) as t1 eqn:Et1.
  remember (after host (LogError timeout_message) (after host (Now t1) w1))
    as wd eqn:Ewd.
  destruct (Hquiet wd) as (dvs & Hdlog & Hdq & _).
  destruct (showDiagnostics_spec host wd) as (_ & dvs' & Hdlog' & Hdone & _).
  unfold added in Hdlog'. rewrite Hdlog in Hdlog'.
  apply app_inv_tail in Hdlog'; subst dvs'.
  assert (Hfire : (t <? (t1 - t0) / 1000) = true).
  { apply Z.ltb_lt. assert (0 <= (t1 - t0) / 1000) by (apply Z.div_pos; lia). lia. }
  exists (after host EndGroup (snd (showDiagnostics host wd))).
  exists (EndGroup :: dvs
            ++ [LogError timeout_message; Now t1; Now t0;
                Info ("Waiting for k0s cluster to be ready (timeout: "
                        ++ Js.show_number (Js.Num t) ++ "s)...")%string;
                StartGroup "Waiting for cluster ready"]).
  split; [ | split; [ | split; [ | split ] ] ].
  - intros [ | fuel] Hfuel; [ lia | ].
    rewrite waitForClusterReady_spec; cbv zeta.
    rewrite <- Ew0, <- Et0, <- Ew1, pollLoop_step, pollCycle_spec; cbv zeta.
    rewrite <- Et1, <- Ewd. cbn [Js.gt]. rewrite Hfire. reflexivity.
  - unfold added. cbn [after perform snd log]. rewrite Hdlog, Ewd.
    cbn [after perform snd log]. rewrite Hw1log, Hw0. assoc.
  - unfold deadline_checks, clock_reads.
    change (EndGroup :: dvs ++ ?l) with ([EndGroup] ++ dvs ++ l).
    rewrite !count_app.
    rewrite (count_none _ (fun e => negb (is_layer_probe e) && negb (is_clock_read e)) dvs);
      [ reflexivity | | exact Hdq ].
    intros e He. destruct e; try reflexivity.
    rewrite andb_comm in He; discriminate He.
  - change (EndGroup :: dvs ++ ?l) with ([EndGroup] ++ dvs ++ l).
    rewrite !existsb_app, (existsb_none is_layer_probe dvs); [ reflexivity | ].
    eapply forallb_weaken; [ | exact Hdq ].
    intros e He; cbv beta in He.
    destruct (is_layer_probe e); [ discriminate He | reflexivity ].
  - change (EndGroup :: dvs ++ ?l) with ([EndGroup] ++ dvs ++ l).
    rewrite !count_app, Hdone. reflexivity.
Qed.

Lemma negative_timeout_fires_at_once_witness :
  exists w' evs,
    (forall fuel, (1 <= fuel)%nat ->
       waitForClusterReady Runner.healthy fuel (Js.Num (-1)) Runner.boot
       = (Exn "Failed waiting for cluster: Error: Timeout waiting for cluster to be ready",
          w'))
    /\ added (log Runner.boot) evs w'
    /\ deadline_checks evs = 1%nat
    /\ existsb is_layer_probe evs = false
    /\ count is_diagnostics evs = 1%nat.
Proof.
  apply (negative_timeout_fires_at_once Runner.healthy (-1) Runner.boot).
  reflexivity.
Defined.

Lemma followed_snoc (p q : Event -> bool) (next : option Event)
  (l : list Event) (e : Event) (l2 : list Event) :
  followed p q next (l ++ [e]) = true -> followed p q (Some e) l2 = true ->
  followed p q next ((l ++ [e]) ++ l2) = true.
Proof.
  revert next; induction l as [ | x l IH]; intros next H1 H2; simpl in *.
  - rewrite andb_true_r in H1. rewrite H1, H2. reflexivity.
  - apply andb_true_iff in H1 as [Hx H1]. rewrite Hx; simpl. auto.
Qed.

Lemma neither_counts (evs : list Event) :
  forallb is_neither evs = true ->
  count is_pause evs = 0%nat /\ clock_reads evs = 0%nat
  /\ forallb (fun e => negb (is_pause e)) evs = true
  /\ forall ms, ~ In (Sleep ms) evs.
Proof.
  intros Hq. repeat split.
  - eapply count_none; [ | exact Hq ]. intros []; try discriminate; reflexivity.
  - eapply count_none; [ | exact Hq ]. intros []; try discriminate; reflexivity.
  - eapply forallb_weaken; [ | exact Hq ]. intros []; try discriminate; reflexivity.
  - intros ms Hin. rewrite forallb_forall in Hq. specialize (Hq _ Hin). discriminate.
Qed.

Lemma emits_neither_layers (host : Host) : emits is_neither (checkLayers host).
Proof. unfold checkLayers, info; footprint. Qed.

Lemma emits_neither_diagnostics (host : Host) : emits is_neither (showDiagnostics host).
Proof. unfold showDiagnostics, info, warning, startGroup, endGroup; footprint. Qed.

(** A loop that has ended: its oldest event is the deadline check of its
    first cycle, every pause is directly followed by the deadline check of
    the next cycle, and there is one pause fewer than there are checks. *)
Lemma pollLoop_paced (host : Host) (startTime : Z) (t : Js.number) (fuel : nat)
  (w : World) :
  let result := pollLoop host fuel startTime t w in
  fst result <> Spin ->
  exists evs,
    added (log w) (evs ++ [Now (clock w)]) (snd result)
    /\ (forall ms, In (Sleep ms) evs -> ms = 5000)
    /\ followed is_pause is_clock_read None (evs ++ [Now (clock w)]) = true
    /\ (count is_pause evs + 1 = clock_reads (evs ++ [Now (clock w)]))%nat.
Proof.
  cbv zeta. revert w; induction fuel as [ | fuel IH]; intros w.
  - intros Hspin; exfalso; apply Hspin; reflexivity.
  - rewrite pollLoop_step, pollCycle_spec; cbv zeta.
    destruct (Js.gt _ _).
    + intros _.
      destruct (emits_neither_diagnostics host
                  (after host (LogError timeout_message)
                     (after host (Now (clock w)) w)))
        as (dvs & Hdlog & Hdq & _).
      destruct (neither_counts _ Hdq) as (Hp & Hr & Hn & Hs).
      exists (dvs ++ [LogError timeout_message]).
      unfold added; cbn [snd]. rewrite Hdlog. cbn [after perform snd log].
      split; [ assoc | ].
      split; [ intros ms [Hin | [Hin | []]]%in_app_or;
               [ destruct (Hs ms Hin) | discriminate Hin ] | ].
      split.
      * apply followed_quiet. rewrite !forallb_app, Hn. reflexivity.
      * unfold clock_reads. rewrite !count_app, Hp.
        change (count _ dvs) with (clock_reads dvs). rewrite Hr. reflexivity.
    + destruct (emits_neither_layers host (after host (Now (clock w)) w))
        as (cvs & Hclog & Hcq & _).
      destruct (neither_counts _ Hcq) as (Hp & Hr & Hn & Hs).
      destruct (checkLayers host _) as [[[ | ] | e | ] w2];
        cbn [fst snd after perform log] in *.
      2: {
        match goal with
        | |- context [pollLoop host fuel startTime t ?x] =>
            remember x as wn eqn:Ewn
        end.
        assert (Hwn : exists m, log wn = [Sleep 5000; Info m] ++ log w2)
          by (subst wn; eexists; reflexivity).
        destruct Hwn as (m & Hwn). clear Ewn. intros Hended.
        destruct (IH wn Hended) as (evs & Hlog & Hfive & Hfollowed & Hcount).
        unfold added in *.
        exists ((evs ++ [Now (clock wn)]) ++ [Sleep 5000; Info m] ++ cvs).
        rewrite Hlog, Hwn, Hclog.
        split; [ assoc | ].
        split.
        { intros ms Hin. repeat (apply in_app_or in Hin as [Hin | Hin]).
          - auto.
          - destruct Hin as [Hin | []]; discriminate Hin.
          - destruct Hin as [Hin | [Hin | []]]; [ congruence | discriminate Hin ].
          - destruct (Hs ms Hin). }
        split.
        { rewrite <- app_assoc. apply followed_snoc; [ exact Hfollowed | ].
          cbn [app followed is_pause is_clock_read andb]. rewrite Z.eqb_refl.
          apply followed_quiet. rewrite forallb_app, Hn. reflexivity. }
        unfold clock_reads in *. rewrite !count_app in *. rewrite Hp, Hr.
        cbn in *. lia. }
      all: intros _; exists cvs; unfold added; cbn [snd]; rewrite Hclog.
      all: split; [ assoc | ].
      all: split; [ intros ms Hin; destruct (Hs ms Hin) | ].
      all: split; [ apply followed_quiet; rewrite forallb_app, Hn; reflexivity | ].
      all: unfold clock_reads; rewrite count_app, Hp;
        change (count _ cvs) with (clock_reads cvs); rewrite Hr; reflexivity.
Qed.

(** X13. The poller never polls twice without pausing in between.  In
    any run of [waitForClusterReady] that has ended, every timer the poller
    has set is one of 5000 ms, every such pause is directly followed by
    the deadline check of the next cycle, and there is exactly one pause
    fewer than there are deadline checks: between two consecutive deadline
    checks, and so between two rounds of probes, the poller has asked for
    one pause of five seconds, and it never pauses after the cycle that
    ends the loop. *)
Theorem polls_are_separated_by_a_pause (host : Host) (fuel : nat) (t : Js.number)
  (w : World) :
  let result := waitForClusterReady host fuel t w in
  fst result <> Spin ->
  exists evs, added (log w) evs (snd result)
    /\ (forall ms, In (Sleep ms) evs -> ms = 5000)
    /\ followed is_pause is_clock_read None evs = true
    /\ deadline_checks evs = S (count is_pause evs).
Proof.
  cbv zeta. rewrite waitForClusterReady_spec; cbv zeta.
  remember (after host
              (Info ("Waiting for k0s cluster to be ready (timeout: "
                       ++ Js.show_number t ++ "s)...")%string)
              (after host (StartGroup "Waiting for cluster ready") w)) as w0 eqn:Ew0.
  assert (Hw0 : exists m, log w0 = [Info m; StartGroup "Waiting for cluster ready"] ++ log w)
    by (subst w0; eexists; reflexivity).
  destruct Hw0 as (m & Hw0).
  remember (clock w0) as t0 eqn:Et0.
  remember (after host (Now t0) w0) as w1 eqn:Ew1.
  assert (Hw1 : log w1 = [Now t0] ++ log w0) by (subst w1; reflexivity).
  clear Ew0 Et0 Ew1.
  pose proof (pollLoop_paced host t0 t fuel w1) as Hloop; cbv zeta in Hloop.
  destruct (pollLoop host fuel t0 t w1) as [[[] | e | ] wl];
    cbn [fst snd after perform log] in *; intros Hended;
    [ | | exfalso; apply Hended; reflexivity ].
  all: destruct (Hloop ltac:(discriminate))
         as (evs & Hlog & Hfive & Hfollowed & Hcount);
    unfold added in *; rewrite Hlog, Hw1, Hw0.
  - exists ([EndGroup; Info "✓ k0s cluster is fully ready!"]
              ++ (evs ++ [Now (clock w1)]) ++ [Now t0; Info m; StartGroup "Waiting for cluster ready"]).
    split; [ assoc | ].
    split.
    { intros ms Hin. repeat (apply in_app_or in Hin as [Hin | Hin]); auto.
      all: repeat (destruct Hin as [Hin | Hin]; try discriminate Hin); destruct Hin. }
    split.
    { apply followed_app; [ reflexivity | ].
      apply followed_app; [ exact Hfollowed | reflexivity ]. }
    unfold deadline_checks, clock_reads in *. rewrite !count_app in *.
    cbn in *. lia.
  - exists ([EndGroup]
              ++ (evs ++ [Now (clock w1)]) ++ [Now t0; Info m; StartGroup "Waiting for cluster ready"]).
    split; [ assoc | ].
    split.
    { intros ms Hin. repeat (apply in_app_or in Hin as [Hin | Hin]); auto.
      all: repeat (destruct Hin as [Hin | Hin]; try discriminate Hin); destruct Hin. }
    split.
    { apply followed_app; [ reflexivity | ].
      apply followed_app; [ exact Hfollowed | reflexivity ]. }
    unfold deadline_checks, clock_reads in *. rewrite !count_app in *.
    cbn in *. lia.
Qed.

Lemma polls_are_separated_by_a_pause_witness :
  exists evs,
    added (log Runner.boot) evs
      (snd (waitForClusterReady Runner.flapping 3 (Js.Num 7) Runner.boot))
    /\ deadline_checks evs = S (count is_pause evs).
Proof.
  destruct (polls_are_separated_by_a_pause Runner.flapping 3 (Js.Num 7) Runner.boot)
    as (evs & Hadded & _ & _ & Hcount).
  - vm_compute; discriminate.
  - exists evs. split; [ exact Hadded | exact Hcount ].
Defined.

(** ** The closing line *)

Lemma wait_not_done (host : Host) (fuel : nat) (t : Js.number) :
  emits (fun e => negb (is_done e)) (waitForClusterReady host fuel t).
Proof.
  assert (Hloop : forall startTime,
            emits (fun e => negb (is_done e)) (pollLoop host fuel startTime t)).
  { intros startTime. induction fuel as [ | fuel IH]; simpl; [ footprint | ].
    apply emits_bind; [ | intros []; [ footprint | exact IH ] ].
    unfold pollCycle, info, logError.
    apply emits_bind; [ footprint | intros now ].
    destruct (Js.gt _ _).
    - apply emits_bind; [ footprint | intros _ ].
      apply emits_bind; [ | intros _; footprint ].
      unfold showDiagnostics, info, warning, startGroup, endGroup; footprint.
    - apply emits_bind; [ | intros []; footprint ].
      unfold checkLayers, info; footprint. }
  unfold waitForClusterReady, info, startGroup, endGroup.
  apply emits_bind; [ footprint | intros _ ].
  apply emits_try_finally; [ | footprint ].
  apply emits_try_catch; [ | intros; footprint ].
  apply emits_bind; [ footprint | intros _ ].
  apply emits_bind; [ footprint | intros startTime ].
  apply emits_bind; [ apply Hloop | intros _ ]. footprint.
Qed.

(** X14. The closing line "✓ k0s setup completed successfully!" is in the
    log of a run of [main] exactly when [main] has returned normally, and
    it is then the last thing the run did: no phase logs it, and a run
    that failed, or is still polling, never shows it. *)
Theorem closing_line_means_success (host : Host) (fuel : nat) (w : World) :
  let result := main host fuel w in
  exists evs, added (log w) evs (snd result)
    /\ existsb is_done evs = returned (fst result)
    /\ (fst result = Val tt -> hd_error evs = Some (Info done_message)).
Proof.
  cbv zeta. rewrite main_spec. unfold added.
  assert (Hi : emits (fun e => negb (is_done e))
                 (installK0s host (version_input host)))
    by (unfold installK0s, info, startGroup, endGroup; footprint).
  assert (Hs : emits (fun e => negb (is_done e)) (startK0s host))
    by (unfold startK0s, info, startGroup, endGroup, setOutput, exportVariable;
        footprint).
  assert (Hpre : existsb is_done (preamble host) = false) by reflexivity.
  destruct (Hi (started host w)) as (e1 & H1 & Hq1%existsb_none & _).
  destruct (installK0s host _ _) as [[[] | e | ] w1]; cbn [fst snd] in *.
  2, 3: exists (e1 ++ preamble host); rewrite H1, started_log, existsb_app, Hq1, Hpre;
    (split; [ assoc | split; [ reflexivity | discriminate ] ]).
  destruct (Hs w1) as (e2 & H2 & Hq2%existsb_none & _).
  destruct (startK0s host w1) as [[[] | e | ] w2]; cbn [fst snd] in *.
  2, 3: exists (e2 ++ e1 ++ preamble host);
    rewrite H2, H1, started_log, !existsb_app, Hq2, Hq1, Hpre;
    (split; [ assoc | split; [ reflexivity | discriminate ] ]).
  destruct (waitForReady_input host).
  - destruct (wait_not_done host fuel (timeout_input host) w2)
      as (e3 & H3 & Hq3%existsb_none & _).
    destruct (waitForClusterReady host fuel _ w2) as [[[] | e | ] w3];
      cbn [fst snd after perform log] in *.
    1: exists (Info done_message :: e3 ++ e2 ++ e1 ++ preamble host).
    2, 3: exists (e3 ++ e2 ++ e1 ++ preamble host).
    all: rewrite H3, H2, H1, started_log;
      (split; [ assoc | split; [ | first [ reflexivity | discriminate ] ] ]).
    1: reflexivity.
    all: rewrite !existsb_app, Hq3, Hq2, Hq1, Hpre; reflexivity.
  - exists (Info done_message :: e2 ++ e1 ++ preamble host).
    cbn [fst snd after perform log]. rewrite H2, H1, started_log.
    split; [ assoc | split; reflexivity ].
Qed.

Lemma closing_line_means_success_witness :
  exists evs,
    added (log Runner.boot) evs (snd (main Runner.unwaited 0 Runner.boot))
    /\ hd_error evs = Some (Info done_message).
Proof.
  destruct (closing_line_means_success Runner.unwaited 0 Runner.boot)
    as (evs & Hadded & _ & Hlast).
  exists evs. split; [ exact Hadded | ].
  apply Hlast. vm_compute; reflexivity.
Defined.
